(** * Lista-de-Compras: the offline-first synchronisation engine

    A shallow embedding of the reconciliation logic of the shopping-list
    component [App].  The repository holds two revisions of the component:

    - [src/unnamed/part_000] (module [Part000]): the revision with the
      currency text field, per-record error handling during replay and
      the local-id guard on every remote update;
    - [src/unnamed/part_001] (module [Part001]): the revision with a
      numeric price, a single [try] around the whole replay and the
      [updateLocalItemId] helper.

    Modelling conventions, shared by both modules.

    - A JavaScript [number] is an IEEE-754 binary64 value: [float].
    - React state ([items], [pendingChanges], [newItem], ...) and the
      [localStorage] entry ['shopping-items'] are fields of a [World]
      record; a handler is a state transformer over it.  A handler reads
      the state captured by its closure (the world at the moment it is
      invoked, bound as [render]) and writes through the setters;
      a functional update [setX(prev => ...)] reads the current world.
    - Each handler runs to completion from a rendered state: no other
      handler is interleaved at its [await]s.
    - The remote document store is an opaque collaborator.  Every call is
      appended to the [remoteCalls] log, and the reply ([Resolved] or
      [Rejected], the promise's outcome) is an input of the handler.
    - The [localStorage] field holds the array whose JSON text the entry
      holds: [setItem(..., JSON.stringify l)] stores [l], and
      [JSON.parse(getItem(...))] is modelled as returning [l].  That read
      is exact when every number of [l] is finite and not negative zero;
      otherwise [JSON] returns [null] for [NaN] and the infinities and [0]
      for negative zero ([jsonNumber], [readBack]).  Statements on the
      snapshot say what has been written.  [getItem]/[setItem] do not
      throw.
    - [new Date().toISOString()] and [Date.now()] are inputs ([clock],
      [stamp]). *)

From Stdlib Require Import List String Ascii Bool Arith Lia PrimFloat.
Import ListNotations.

Local Open Scope string_scope.
Local Open Scope list_scope.

(** ** Strings *)

(** [s.includes(sub)]: [sub] occurs somewhere in [s]. *)
Fixpoint includes (sub s : string) : bool :=
  if String.prefix sub s then true
  else match s with
       | EmptyString => false
       | String _ rest => includes sub rest
       end.

(** A template literal [`local-${n}`]. *)
Definition localIdOf (stamp : string) : string := "local-" ++ stamp.

(** ** Data model *)

(** [interface ShoppingItem]. *)
Record ShoppingItem : Type := mkItem {
  id : string;
  name : string;
  quantity : float;
  unitPrice : float;
  total : float;
  completed : bool;
  createdAt : string;
  updatedAt : string
}.

(** The rest of [const { id, ...itemWithoutId } = item]: a remote document. *)
Record ItemData : Type := mkData {
  doc_name : string;
  doc_quantity : float;
  doc_unitPrice : float;
  doc_total : float;
  doc_completed : bool;
  doc_createdAt : string;
  doc_updatedAt : string
}.

Definition withoutId (item : ShoppingItem) : ItemData :=
  mkData (name item) (quantity item) (unitPrice item) (total item)
         (completed item) (createdAt item) (updatedAt item).

(** [{ ...item, id: newId }]. *)
Definition withId (item : ShoppingItem) (newId : string) : ShoppingItem :=
  mkItem newId (name item) (quantity item) (unitPrice item) (total item)
         (completed item) (createdAt item) (updatedAt item).

(** [{ ...doc.data(), id: doc.id }]: a fetched document with its key. *)
Definition ofDoc (doc : string * ItemData) : ShoppingItem :=
  let (docId, data) := doc in
  mkItem docId (doc_name data) (doc_quantity data) (doc_unitPrice data)
         (doc_total data) (doc_completed data) (doc_createdAt data)
         (doc_updatedAt data).

(** The test the code uses for an identifier of the local space. *)
Definition isLocalId (i : string) : bool := includes "local-" i.

(** ** The remote store, seen from the component *)

Inductive RemoteCall : Type :=
| AddDoc (data : ItemData)
| UpdateDoc (docId : string) (data : ItemData)
| DeleteDoc (docId : string)
| GetDocs.

(** The outcome of an awaited remote call.  [docId] is the key of the
    document reference [addDoc] resolves to; [updateDoc] and [deleteDoc]
    resolve to nothing and ignore it. *)
Inductive Reply : Type :=
| Resolved (docId : string)
| Rejected.

Definition isRejected (r : Reply) : bool :=
  match r with Rejected => true | Resolved _ => false end.

(** ** Component state *)

Record World {Form : Type} : Type := mkWorld {
  items : list ShoppingItem;
  pendingChanges : list ShoppingItem;
  isOnline : bool;
  newItem : Form;
  isAddingItem : bool;
  isEditingItem : option string;
  localStorage : option (list ShoppingItem);
  remoteCalls : list RemoteCall
}.
Arguments World : clear implicits.
Arguments mkWorld {Form}.

(** The array a reader of the snapshot gets:
    [localItems ? JSON.parse(localItems) : []]. *)
Definition localData {Form} (w : World Form) : list ShoppingItem :=
  match localStorage w with
  | Some l => l
  | None => []
  end.

(** ** A state monad for handlers *)

Definition App (Form A : Type) : Type := World Form -> A * World Form.

Definition ret {Form A} (a : A) : App Form A := fun w => (a, w).

Definition bind {Form A B} (c : App Form A) (k : A -> App Form B) : App Form B :=
  fun w => let (a, w') := c w in k a w'.

Definition exec {Form A} (c : App Form A) (w : World Form) : World Form :=
  snd (c w).

Declare Scope app_scope.
Delimit Scope app_scope with app.
Notation "x <- c ;; k" := (bind c (fun x => k))
  (at level 61, c at next level, right associativity) : app_scope.
Notation "c ;; k" := (bind c (fun _ => k))
  (at level 61, right associativity) : app_scope.
Local Open Scope app_scope.

Section Primitives.
Context {Form : Type}.

(** The values the running closure captured. *)
Definition rendered : App Form (World Form) := fun w => (w, w).

(** [setItems(next)] and [setItems(prev => f prev)]. *)
Definition setItems (next : list ShoppingItem) : App Form unit :=
  fun w => (tt, mkWorld next (pendingChanges w) (isOnline w) (newItem w)
                        (isAddingItem w) (isEditingItem w)
                        (localStorage w) (remoteCalls w)).

Definition updateItems (f : list ShoppingItem -> list ShoppingItem)
  : App Form unit :=
  fun w => setItems (f (items w)) w.

(** [setPendingChanges(next)] and [setPendingChanges(prev => f prev)]. *)
Definition setPendingChanges (next : list ShoppingItem) : App Form unit :=
  fun w => (tt, mkWorld (items w) next (isOnline w) (newItem w)
                        (isAddingItem w) (isEditingItem w)
                        (localStorage w) (remoteCalls w)).

Definition updatePendingChanges (f : list ShoppingItem -> list ShoppingItem)
  : App Form unit :=
  fun w => setPendingChanges (f (pendingChanges w)) w.

Definition setNewItem (next : Form) : App Form unit :=
  fun w => (tt, mkWorld (items w) (pendingChanges w) (isOnline w) next
                        (isAddingItem w) (isEditingItem w)
                        (localStorage w) (remoteCalls w)).

Definition setIsAddingItem (b : bool) : App Form unit :=
  fun w => (tt, mkWorld (items w) (pendingChanges w) (isOnline w) (newItem w)
                        b (isEditingItem w)
                        (localStorage w) (remoteCalls w)).

Definition setIsEditingItem (e : option string) : App Form unit :=
  fun w => (tt, mkWorld (items w) (pendingChanges w) (isOnline w) (newItem w)
                        (isAddingItem w) e
                        (localStorage w) (remoteCalls w)).

(** [localStorage.getItem('shopping-items')], parsed. *)
Definition getStored : App Form (option (list ShoppingItem)) :=
  fun w => (localStorage w, w).

(** [localStorage.setItem('shopping-items', JSON.stringify(l))]. *)
Definition setStored (l : list ShoppingItem) : App Form unit :=
  fun w => (tt, mkWorld (items w) (pendingChanges w) (isOnline w) (newItem w)
                        (isAddingItem w) (isEditingItem w)
                        (Some l) (remoteCalls w)).

Definition call (c : RemoteCall) : App Form unit :=
  fun w => (tt, mkWorld (items w) (pendingChanges w) (isOnline w) (newItem w)
                        (isAddingItem w) (isEditingItem w)
                        (localStorage w) (remoteCalls w ++ [c])).

(** [await addDoc(collection(db, 'items'), data)]: the new key, or the
    rejection. *)
Definition addDoc (data : ItemData) (reply : Reply) : App Form Reply :=
  call (AddDoc data) ;; ret reply.

(** [await updateDoc(doc(db, 'items', docId), data)]. *)
Definition updateDoc (docId : string) (data : ItemData) (reply : Reply)
  : App Form Reply :=
  call (UpdateDoc docId data) ;; ret reply.

(** [await deleteDoc(doc(db, 'items', docId))]. *)
Definition deleteDoc (docId : string) (reply : Reply) : App Form Reply :=
  call (DeleteDoc docId) ;; ret reply.

(** [await getDocs(collection(db, 'items'))]: [querySnapshot.docs] as
    pairs of a document's key and data; [None] when the call rejects. *)
Definition getDocs (listing : option (list (string * ItemData)))
  : App Form (option (list (string * ItemData))) :=
  call GetDocs ;; ret listing.

(** [saveToStorage]. *)
Definition saveToStorage (updatedItems : list ShoppingItem) : App Form unit :=
  setItems updatedItems ;;
  setStored updatedItems.

End Primitives.

(** [prevItem.id === oldId ? { ...prevItem, id: newId } : prevItem]. *)
Definition renameId (oldId newId : string) (item : ShoppingItem) : ShoppingItem :=
  if id item =? oldId then withId item newId else item.

(** [item.id === target ? replacement : item]. *)
Definition replaceById (target : string) (replacement item : ShoppingItem)
  : ShoppingItem :=
  if id item =? target then replacement else item.

(** [items.find(item => item.id === target)]. *)
Definition findById (target : string) (l : list ShoppingItem)
  : option ShoppingItem :=
  find (fun item => id item =? target) l.

(** [items.filter(item => item.id !== target)]. *)
Definition dropId (target : string) (l : list ShoppingItem) : list ShoppingItem :=
  filter (fun item => negb (id item =? target)) l.

(** ** Revision [part_000] *)

Module Part000.

(** [interface NewItemState]: the add/edit form; the price is text. *)
Record NewItemState : Type := mkForm {
  new_name : string;
  new_quantity : float;
  new_unitPrice : string
}.

Definition App := App NewItemState.
Definition World := World NewItemState.

(** [useState] initial values; [online] is [navigator.onLine] and
    [stored] the snapshot a previous session left. *)
Definition initial (online : bool) (stored : option (list ShoppingItem))
  : World :=
  mkWorld [] [] online (mkForm "" 1 "") false None stored [].

(** [loadItems].  The outer [catch] is entered only when [JSON.parse]
    throws, which the model excludes. *)
Definition loadItems (navigatorOnLine : bool)
           (listing : option (list (string * ItemData))) : App unit :=
  localItems <- getStored ;;
  let localData := match localItems with Some l => l | None => [] end in
  if navigatorOnLine then
    fetched <- getDocs listing ;;
    match fetched with
    | Some docs =>
        let fetchedItems := map ofDoc docs in
        if (0 <? List.length fetchedItems)%nat then
          setItems fetchedItems ;;
          setStored fetchedItems
        else if (0 <? List.length localData)%nat then
          setItems localData
        else ret tt
    | None =>
        if (0 <? List.length localData)%nat then setItems localData else ret tt
    end
  else if (0 <? List.length localData)%nat then
    setItems localData
  else ret tt.

(** The body of the [for] loop of [syncPendingChanges] from index [i] on:
    [reply i] is the outcome of the remote call made for
    [updatedPendingChanges[i]]; the result is [failedChanges]. *)
Fixpoint syncLoop (reply : nat -> Reply) (i : nat)
         (queue failedChanges : list ShoppingItem)
  : App (list ShoppingItem) :=
  match queue with
  | [] => ret failedChanges
  | item :: rest =>
      failedChanges' <-
        (if negb (includes "local-" (id item)) then
           r <- updateDoc (id item) (withoutId item) (reply i) ;;
           match r with
           | Resolved _ => ret failedChanges
           | Rejected => ret (failedChanges ++ [item])
           end
         else
           r <- addDoc (withoutId item) (reply i) ;;
           match r with
           | Resolved docRef =>
               updateItems (map (renameId (id item) docRef)) ;;
               stored <- getStored ;;
               let currentItems :=
                 match stored with Some l => l | None => [] end in
               setStored (map (renameId (id item) docRef) currentItems) ;;
               ret failedChanges
           | Rejected => ret (failedChanges ++ [item])
           end) ;;
      syncLoop reply (S i) rest failedChanges'
  end.

(** [syncPendingChanges]. *)
Definition syncPendingChanges (reply : nat -> Reply) : App unit :=
  render <- rendered ;;
  if (List.length (pendingChanges render) =? 0)%nat then ret tt
  else
    failedChanges <- syncLoop reply 0 (pendingChanges render) [] ;;
    setPendingChanges failedChanges.

(** The component's two effects of [useOnlineStatus]: the [online] and
    [offline] events set [isOnline]; a change to [true] with a non-empty
    queue starts the replay. *)
Definition setIsOnline (b : bool) : App unit :=
  fun w => (tt, mkWorld (items w) (pendingChanges w) b (newItem w)
                        (isAddingItem w) (isEditingItem w)
                        (localStorage w) (remoteCalls w)).

Definition handleOnline (reply : nat -> Reply) : App unit :=
  before <- rendered ;;
  if isOnline before then ret tt
  else
    setIsOnline true ;;
    render <- rendered ;;
    if isOnline render && (0 <? List.length (pendingChanges render))%nat then
      syncPendingChanges reply
    else ret tt.

Definition handleOffline : App unit := setIsOnline false.

Section Currency.
(** The built-in [parseFloat] is not part of the repository. *)
Variable parseFloat : string -> float.

Definition isDigit (c : ascii) : bool :=
  (48 <=? nat_of_ascii c)%nat && (nat_of_ascii c <=? 57)%nat.

(** [value.replace(/[^0-9,]/g, '')]. *)
Fixpoint keepDigitsAndCommas (s : string) : string :=
  match s with
  | EmptyString => EmptyString
  | String c rest =>
      if isDigit c || Ascii.eqb c ","%char
      then String c (keepDigitsAndCommas rest)
      else keepDigitsAndCommas rest
  end.

(** [.replace(/,/g, '.')]. *)
Fixpoint commasToDots (s : string) : string :=
  match s with
  | EmptyString => EmptyString
  | String c rest =>
      String (if Ascii.eqb c ","%char then "."%char else c)
             (commasToDots rest)
  end.

(** [x || 0] on numbers: [NaN] and both zeros are falsy. *)
Definition orZero (x : float) : float :=
  if is_nan x || is_zero x then 0%float else x.

(** [parseCurrency]. *)
Definition parseCurrency (value : string) : float :=
  if value =? "" then 0%float
  else orZero (parseFloat (commasToDots (keepDigitsAndCommas value))).

(** [handleAddItem].  [clock k] is the [k]-th timestamp the call reads,
    [stamp] the digits of [Date.now()], [reply] the outcome of [addDoc]
    when it is called. *)
Definition handleAddItem (clock : nat -> string) (stamp : string)
           (reply : Reply) : App unit :=
  render <- rendered ;;
  let form := newItem render in
  if (new_name form =? "") || (new_quantity form <=? 0)%float then ret tt
  else
    let parsedPrice := parseCurrency (new_unitPrice form) in
    let made (newId created updated : string) :=
      mkItem newId (new_name form) (new_quantity form) parsedPrice
             (new_quantity form * parsedPrice)%float false
             created updated in
    (if isOnline render then
       docRef <- addDoc (mkData (new_name form) (new_quantity form)
                                parsedPrice
                                (new_quantity form * parsedPrice)%float
                                false (clock 0) (clock 1)) reply ;;
       match docRef with
       | Resolved docId =>
           let newItemData := made docId (clock 2) (clock 3) in
           saveToStorage (items render ++ [newItemData])
       | Rejected =>
           let newItemData := made (localIdOf stamp) (clock 2) (clock 3) in
           saveToStorage (items render ++ [newItemData]) ;;
           updatePendingChanges (fun prev => prev ++ [newItemData])
       end
     else
       let newItemData := made (localIdOf stamp) (clock 0) (clock 1) in
       saveToStorage (items render ++ [newItemData]) ;;
       updatePendingChanges (fun prev => prev ++ [newItemData])) ;;
    setNewItem (mkForm "" 1 "") ;;
    setIsAddingItem false.

(** [handleUpdateItem]. *)
Definition handleUpdateItem (clock : nat -> string) (reply : Reply)
           (itemId : string) : App unit :=
  render <- rendered ;;
  let form := newItem render in
  let parsedPrice := parseCurrency (new_unitPrice form) in
  match findById itemId (items render) with
  | None => ret tt
  | Some itemToUpdate =>
      let newData :=
        mkItem (id itemToUpdate) (new_name form) (new_quantity form)
               parsedPrice (new_quantity form * parsedPrice)%float
               (completed itemToUpdate) (createdAt itemToUpdate)
               (clock 0) in
      saveToStorage (map (replaceById itemId newData) (items render)) ;;
      setIsEditingItem None ;;
      setNewItem (mkForm "" 1 "") ;;
      if isOnline render && negb (includes "local-" itemId) then
        r <- updateDoc (id newData) (withoutId newData) reply ;;
        match r with
        | Resolved _ => ret tt
        | Rejected => updatePendingChanges (fun prev => prev ++ [newData])
        end
      else
        updatePendingChanges (fun prev => prev ++ [newData])
  end.

End Currency.

(** [handleRemoveItem]. *)
Definition handleRemoveItem (reply : Reply) (rid : string) : App unit :=
  render <- rendered ;;
  saveToStorage (dropId rid (items render)) ;;
  (if isOnline render && negb (includes "local-" rid) then
     deleteDoc rid reply ;; ret tt
   else ret tt) ;;
  updatePendingChanges (dropId rid).

(** [toggleItemCompletion]. *)
Definition toggleItemCompletion (clock : nat -> string) (reply : Reply)
           (target : string) : App unit :=
  render <- rendered ;;
  match findById target (items render) with
  | None => ret tt
  | Some itemToUpdate =>
      let updatedItem :=
        mkItem (id itemToUpdate) (name itemToUpdate)
               (quantity itemToUpdate) (unitPrice itemToUpdate)
               (total itemToUpdate) (negb (completed itemToUpdate))
               (createdAt itemToUpdate) (clock 0) in
      saveToStorage (map (replaceById target updatedItem) (items render)) ;;
      if isOnline render && negb (includes "local-" target) then
        r <- updateDoc (id updatedItem) (withoutId updatedItem) reply ;;
        match r with
        | Resolved _ => ret tt
        | Rejected => updatePendingChanges (fun prev => prev ++ [updatedItem])
        end
      else
        updatePendingChanges (fun prev => prev ++ [updatedItem])
  end.

(** [calculateTotal]: [filter] then [reduce] from [0]. *)
Definition calculateTotal (w : World) : float :=
  fold_left (fun sum item => (sum + total item)%float)
            (filter (fun item => negb (completed item)) (items w))
            0%float.

(** The form's handlers that reach the engine through [newItem]. *)

Section Formatting.
(** The built-in [Number.prototype.toFixed(2)] is not part of the
    repository. *)
Variable toFixed2 : float -> string.

(** [s.replace('.', ',')]: a string pattern replaces its first occurrence
    only. *)
Fixpoint replaceFirstDot (s : string) : string :=
  match s with
  | EmptyString => EmptyString
  | String c rest =>
      if Ascii.eqb c "."%char then String ","%char rest
      else String c (replaceFirstDot rest)
  end.

(** [formatCurrency]. *)
Definition formatCurrency (value : float) : string :=
  replaceFirstDot (toFixed2 value).

(** The [onClick] of an item's edit button. *)
Definition startEdit (item : ShoppingItem) : App unit :=
  setIsEditingItem (Some (id item)) ;;
  setNewItem (mkForm (name item) (quantity item)
                     (formatCurrency (unitPrice item))).

End Formatting.

(** The [onClick] of the edit form's cancel button. *)
Definition cancelEdit : App unit :=
  setIsEditingItem None ;;
  setNewItem (mkForm "" 1 "").

(** [.replace(/(,.*?),/g, '$1')] on a string of digits and commas: each
    match runs from a comma to the next one and keeps all but that closing
    comma; the search resumes behind it.  [paired] tells that an opening
    comma is waiting for its closing one.  An opening comma with no comma
    after it is no match and stays. *)
Fixpoint dropPairedCommas (paired : bool) (s : string) : string :=
  match s with
  | EmptyString => EmptyString
  | String c rest =>
      if Ascii.eqb c ","%char then
        if paired then dropPairedCommas false rest
        else String c (dropPairedCommas true rest)
      else String c (dropPairedCommas paired rest)
  end.

(** The text the price field's [onChange] stores for the typed text. *)
Definition sanitizePrice (typed : string) : string :=
  let value := dropPairedCommas false (keepDigitsAndCommas typed) in
  if String.prefix "," value then "0" ++ value else value.

(** The [onChange] of the price field. *)
Definition onPriceChange (typed : string) : App unit :=
  render <- rendered ;;
  setNewItem (mkForm (new_name (newItem render))
                     (new_quantity (newItem render))
                     (sanitizePrice typed)).

End Part000.

(** ** Revision [part_001] *)

Module Part001.

(** The add/edit form of this revision; the price is a number. *)
Record NewItemState : Type := mkForm {
  new_name : string;
  new_quantity : float;
  new_unitPrice : float
}.

Definition App := App NewItemState.
Definition World := World NewItemState.

Definition initial (online : bool) (stored : option (list ShoppingItem))
  : World :=
  mkWorld [] [] online (mkForm "" 1 0) false None stored [].

(** [loadItems]: one [try] around everything; a rejected [getDocs] lands
    in the [catch], which only logs. *)
Definition loadItems (navigatorOnLine : bool)
           (listing : option (list (string * ItemData))) : App unit :=
  localItems <- getStored ;;
  let localData := match localItems with Some l => l | None => [] end in
  if navigatorOnLine then
    fetched <- getDocs listing ;;
    match fetched with
    | Some docs =>
        let fetchedItems := map ofDoc docs in
        if (0 <? List.length fetchedItems)%nat then
          setStored fetchedItems ;;
          setItems fetchedItems
        else if (0 <? List.length localData)%nat then
          setItems localData
        else ret tt
    | None => ret tt
    end
  else if (0 <? List.length localData)%nat then
    setItems localData
  else ret tt.

(** [updateLocalItemId].  [closureItems] is the [items] of the render in
    which the helper was created: the snapshot is rebuilt from it, the
    state from the current value. *)
Definition updateLocalItemId (closureItems : list ShoppingItem)
           (localId firebaseId : string) : App unit :=
  updateItems (map (renameId localId firebaseId)) ;;
  setStored (map (renameId localId firebaseId) closureItems).

(** The [for ... of] loop of [syncPendingChanges]; the result is [false]
    when a remote call rejected, which leaves the loop for the [catch]. *)
Fixpoint syncLoop (closureItems : list ShoppingItem) (reply : nat -> Reply)
         (i : nat) (queue : list ShoppingItem) : App bool :=
  match queue with
  | [] => ret true
  | item :: rest =>
      if negb (includes "local-" (id item)) then
        r <- updateDoc (id item) (withoutId item) (reply i) ;;
        match r with
        | Resolved _ => syncLoop closureItems reply (S i) rest
        | Rejected => ret false
        end
      else
        r <- addDoc (withoutId item) (reply i) ;;
        match r with
        | Resolved docRef =>
            updateLocalItemId closureItems (id item) docRef ;;
            syncLoop closureItems reply (S i) rest
        | Rejected => ret false
        end
  end.

(** [syncPendingChanges]; [navigatorOnLine] and [listing] are read by the
    [loadItems] it ends with. *)
Definition syncPendingChanges (reply : nat -> Reply) (navigatorOnLine : bool)
           (listing : option (list (string * ItemData))) : App unit :=
  render <- rendered ;;
  finished <- syncLoop (items render) reply 0 (pendingChanges render) ;;
  if finished then
    setPendingChanges [] ;;
    loadItems navigatorOnLine listing
  else ret tt.

Definition setIsOnline (b : bool) : App unit :=
  fun w => (tt, mkWorld (items w) (pendingChanges w) b (newItem w)
                        (isAddingItem w) (isEditingItem w)
                        (localStorage w) (remoteCalls w)).

(** The [online] event followed by the effect on
    [[isOnline, pendingChanges]]. *)
Definition handleOnline (reply : nat -> Reply) (navigatorOnLine : bool)
           (listing : option (list (string * ItemData))) : App unit :=
  before <- rendered ;;
  if isOnline before then ret tt
  else
    setIsOnline true ;;
    render <- rendered ;;
    if isOnline render && (0 <? List.length (pendingChanges render))%nat then
      syncPendingChanges reply navigatorOnLine listing
    else ret tt.

Definition handleOffline : App unit := setIsOnline false.

(** [handleAddItem]; [uuid] is [crypto.randomUUID()]. *)
Definition handleAddItem (clock : nat -> string) (uuid stamp : string)
           (reply : Reply) : App unit :=
  render <- rendered ;;
  let form := newItem render in
  if new_name form =? "" then ret tt
  else
    let item :=
      mkItem (if isOnline render then uuid else localIdOf stamp)
             (new_name form) (new_quantity form) (new_unitPrice form)
             (new_quantity form * new_unitPrice form)%float false
             (clock 0) (clock 1) in
    saveToStorage (items render ++ [item]) ;;
    (if isOnline render then
       docRef <- addDoc (withoutId item) reply ;;
       match docRef with
       | Resolved docId => updateLocalItemId (items render) (id item) docId
       | Rejected => setPendingChanges (pendingChanges render ++ [item])
       end
     else setPendingChanges (pendingChanges render ++ [item])) ;;
    setNewItem (mkForm "" 1 0) ;;
    setIsAddingItem false.

(** [handleUpdateItem]: the caller passes the whole new item. *)
Definition handleUpdateItem (reply : Reply) (updatedItem : ShoppingItem)
  : App unit :=
  render <- rendered ;;
  saveToStorage (map (replaceById (id updatedItem) updatedItem)
                     (items render)) ;;
  (if isOnline render then
     r <- updateDoc (id updatedItem) (withoutId updatedItem) reply ;;
     match r with
     | Resolved _ => ret tt
     | Rejected => setPendingChanges (pendingChanges render ++ [updatedItem])
     end
   else setPendingChanges (pendingChanges render ++ [updatedItem])) ;;
  setIsEditingItem None.

(** The [onClick] of the edit form's save button, for the listed [item]. *)
Definition saveEdit (clock : nat -> string) (reply : Reply)
           (item : ShoppingItem) : App unit :=
  render <- rendered ;;
  let form := newItem render in
  handleUpdateItem reply
    (mkItem (id item) (new_name form) (new_quantity form)
            (new_unitPrice form)
            (new_quantity form * new_unitPrice form)%float
            (completed item) (createdAt item) (clock 0)).

(** [handleRemoveItem]. *)
Definition handleRemoveItem (reply : Reply) (rid : string) : App unit :=
  render <- rendered ;;
  saveToStorage (dropId rid (items render)) ;;
  (if isOnline render && negb (includes "local-" rid) then
     deleteDoc rid reply ;; ret tt
   else ret tt) ;;
  setPendingChanges (dropId rid (pendingChanges render)).

(** [toggleItemCompletion]. *)
Definition toggleItemCompletion (clock : nat -> string) (reply : Reply)
           (target : string) : App unit :=
  render <- rendered ;;
  match findById target (items render) with
  | None => ret tt
  | Some itemToUpdate =>
      handleUpdateItem reply
        (mkItem (id itemToUpdate) (name itemToUpdate)
                (quantity itemToUpdate) (unitPrice itemToUpdate)
                (total itemToUpdate) (negb (completed itemToUpdate))
                (createdAt itemToUpdate) (clock 0))
  end.

(** [calculateTotal]: [reduce] over every item. *)
Definition calculateTotal (w : World) : float :=
  fold_left (fun sum item => (sum + total item)%float) (items w) 0%float.

(** The [onClick] of an item's edit button. *)
Definition startEdit (item : ShoppingItem) : App unit :=
  setIsEditingItem (Some (id item)) ;;
  setNewItem (mkForm (name item) (quantity item) (unitPrice item)).

(** The [onClick] of the edit form's cancel button. *)
Definition cancelEdit : App unit :=
  setIsEditingItem None ;;
  setNewItem (mkForm "" 1 0).

End Part001.

(** ** Specification-side definitions *)

(** The aggregate as the specification words it: the [total]s of the items
    that are not completed, added from [0] in list order. *)
Fixpoint sumPending (acc : float) (l : list ShoppingItem) : float :=
  match l with
  | [] => acc
  | item :: rest =>
      if completed item then sumPending acc rest
      else sumPending (acc + total item)%float rest
  end.

(** [total == quantity * unitPrice]. *)
Definition totalOk (item : ShoppingItem) : Prop :=
  total item = (quantity item * unitPrice item)%float.

(** An item after a toggle at time [now]: [completed] is negated,
    [updatedAt] refreshed, every other field kept. *)
Definition toggled (now : string) (item : ShoppingItem) : ShoppingItem :=
  mkItem (id item) (name item) (quantity item) (unitPrice item) (total item)
         (negb (completed item)) (createdAt item) now.

(** A form [handleAddItem] of [part_000] refuses: [!newItem.name], or
    [newItem.quantity <= 0]. *)
Definition new_name_empty_or_nonpositive (w : Part000.World) : Prop :=
  Part000.new_name (newItem w) = "" \/
  (Part000.new_quantity (newItem w) <=? 0)%float = true.

(** The records of [queue] whose remote call is rejected, [reply i] being
    the outcome for the record at position [i] (counted from [i]). *)
Fixpoint failedRecords (reply : nat -> Reply) (i : nat)
         (queue : list ShoppingItem) : list ShoppingItem :=
  match queue with
  | [] => []
  | item :: rest =>
      if isRejected (reply i) then item :: failedRecords reply (S i) rest
      else failedRecords reply (S i) rest
  end.

(** The remote call a queued record stands for. *)
Definition callOf (item : ShoppingItem) : RemoteCall :=
  if isLocalId (id item) then AddDoc (withoutId item)
  else UpdateDoc (id item) (withoutId item).

(** The identifier replacements a replay performs: one per local-space
    record whose [addDoc] resolved, in queue order. *)
Fixpoint renamesOf (reply : nat -> Reply) (i : nat)
         (queue : list ShoppingItem) : list (string * string) :=
  match queue with
  | [] => []
  | item :: rest =>
      match reply i with
      | Resolved docRef =>
          if isLocalId (id item)
          then (id item, docRef) :: renamesOf reply (S i) rest
          else renamesOf reply (S i) rest
      | Rejected => renamesOf reply (S i) rest
      end
  end.

Definition applyRenames (rs : list (string * string))
           (l : list ShoppingItem) : list ShoppingItem :=
  fold_left (fun acc p => map (renameId (fst p) (snd p)) acc) rs l.

(** The same replacements, seen from one item. *)
Definition renameAll (rs : list (string * string)) (a : ShoppingItem)
  : ShoppingItem :=
  fold_left (fun acc p => renameId (fst p) (snd p) acc) rs a.

(** The snapshot after the replacements [rs]: it is rewritten only when
    there is one, from [getItem(...) || '[]']. *)
Definition storedAfter (rs : list (string * string))
           (st : option (list ShoppingItem)) : option (list ShoppingItem) :=
  match rs with
  | [] => st
  | _ :: _ => Some (applyRenames rs (match st with Some l => l | None => [] end))
  end.

(** A remote call that does not address a local-space identifier. *)
Definition remoteSafe (c : RemoteCall) : bool :=
  match c with
  | UpdateDoc docId _ => negb (isLocalId docId)
  | DeleteDoc docId => negb (isLocalId docId)
  | AddDoc _ => true
  | GetDocs => true
  end.

(** The four mutations of the item API of [part_000], each with the inputs
    the environment supplies to the call. *)
Inductive Mutation : Type :=
| Add (clock : nat -> string) (stamp : string) (reply : Reply)
| Update (clock : nat -> string) (reply : Reply) (itemId : string)
| Remove (reply : Reply) (rid : string)
| Toggle (clock : nat -> string) (reply : Reply) (target : string).

Definition mutate (parseFloat : string -> float) (m : Mutation)
  : Part000.App unit :=
  match m with
  | Add clock stamp reply => Part000.handleAddItem parseFloat clock stamp reply
  | Update clock reply itemId =>
      Part000.handleUpdateItem parseFloat clock reply itemId
  | Remove reply rid => Part000.handleRemoveItem reply rid
  | Toggle clock reply target => Part000.toggleItemCompletion clock reply target
  end.

(** ** Sample data *)

Definition milk : ShoppingItem :=
  mkItem "local-1700000000000" "Milk" 2 3.5 7 false
         "2024-01-01T10:00:00.000Z" "2024-01-01T10:00:00.000Z".

Definition bread : ShoppingItem :=
  mkItem "local-1700000000001" "Bread" 1 4 4 false
         "2024-01-01T10:01:00.000Z" "2024-01-01T10:01:00.000Z".

Definition eggs : ShoppingItem :=
  mkItem "Xk2f9AbCdEfGhIjKlMnO" "Eggs" 12 0.5 6 true
         "2024-01-01T10:02:00.000Z" "2024-01-01T10:02:00.000Z".

Definition noon (k : nat) : string := "2024-01-02T12:00:00.000Z".

Definition firstOnly (docRef : string) (k : nat) : Reply :=
  match k with
  | 0 => Resolved docRef
  | S _ => Rejected
  end.


(** A run of [part_001]: an item is added offline, the device comes back
    online, the replay's [addDoc] is rejected, and the user ticks the
    item. *)
Definition part001_session : Part001.World * Part001.World :=
  let w0 := exec (Part001.loadItems false None) (Part001.initial false None) in
  let w1 := exec (setNewItem (Part001.mkForm "Milk" 2 3.5)) w0 in
  let w2 := exec (Part001.handleAddItem noon "2f1c" "1700000000000" Rejected) w1 in
  let w3 := exec (Part001.handleOnline (fun _ => Rejected) true None) w2 in
  (w3, exec (Part001.toggleItemCompletion noon Rejected
                                          "local-1700000000000") w3).

(** The snapshot holds the list of the collection. *)
Definition inSync {Form} (w : World Form) : Prop := localData w = items w.

(** How often the character [c] occurs in [s]. *)
Fixpoint countChar (c : ascii) (s : string) : nat :=
  match s with
  | EmptyString => 0
  | String d rest => (if Ascii.eqb d c then 1 else 0) + countChar c rest
  end.

(** Every character of [s] passes [p]. *)
Fixpoint allChars (p : ascii -> bool) (s : string) : bool :=
  match s with
  | EmptyString => true
  | String d rest => p d && allChars p rest
  end.

(** A text of digits with at most one decimal point, as [toFixed(2)] writes
    a finite number that is not negative. *)
Definition decimalText (s : string) : bool :=
  allChars (fun c => Part000.isDigit c || Ascii.eqb c "."%char) s
  && (countChar "."%char s <=? 1)%nat.

(** What can happen to the component of [part_000] after startup. *)
Inductive Event : Type :=
| Mutates (m : Mutation)
| GoesOnline (reply : nat -> Reply)
| GoesOffline
| Types (form : Part000.NewItemState)
| TypesPrice (typed : string)
| StartsEdit (item : ShoppingItem)
| CancelsEdit.

Definition handle (parseFloat : string -> float) (toFixed2 : float -> string)
           (e : Event) : Part000.App unit :=
  match e with
  | Mutates m => mutate parseFloat m
  | GoesOnline reply => Part000.handleOnline reply
  | GoesOffline => Part000.handleOffline
  | Types form => setNewItem form
  | TypesPrice typed => Part000.onPriceChange typed
  | StartsEdit item => Part000.startEdit toFixed2 item
  | CancelsEdit => Part000.cancelEdit
  end.

(** The state after startup and a sequence of events. *)
Definition session (parseFloat : string -> float) (toFixed2 : float -> string)
           (online : bool) (stored : option (list ShoppingItem))
           (navigatorOnLine : bool) (listing : option (list (string * ItemData)))
           (events : list Event) : Part000.World :=
  fold_left (fun w e => exec (handle parseFloat toFixed2 e) w) events
            (exec (Part000.loadItems navigatorOnLine listing)
                  (Part000.initial online stored)).

(** Every record of [queue] has its remote call resolved ([reply i] answers
    the record at position [i], counted from [i]). *)
Fixpoint allResolved (reply : nat -> Reply) (i : nat)
         (queue : list ShoppingItem) : bool :=
  match queue with
  | [] => true
  | _ :: rest => negb (isRejected (reply i)) && allResolved reply (S i) rest
  end.

(** The number of records a loop that stops at the first rejection gets
    to: the resolved ones before it and the rejected one. *)
Fixpoint attempted (reply : nat -> Reply) (i : nat)
         (queue : list ShoppingItem) : nat :=
  match queue with
  | [] => 0
  | _ :: rest =>
      if isRejected (reply i) then 1 else S (attempted reply (S i) rest)
  end.

(** Replies that resolve every call, with one key for the first record and
    another for the rest. *)
Definition twoKeys (k : nat) : Reply :=
  Resolved (match k with
            | 0 => "Zq3RemoteKey000000001"
            | S _ => "Zq3RemoteKey000000002"
            end).

(** The item [handleAddItem] of [part_000] builds from the form. *)
Definition madeFrom (parseFloat : string -> float) (form : Part000.NewItemState)
           (newId created updated : string) : ShoppingItem :=
  mkItem newId (Part000.new_name form) (Part000.new_quantity form)
         (Part000.parseCurrency parseFloat (Part000.new_unitPrice form))
         (Part000.new_quantity form
          * Part000.parseCurrency parseFloat (Part000.new_unitPrice form))%float
         false created updated.

(** The item [handleUpdateItem] of [part_000] writes over [a]. *)
Definition editedFrom (parseFloat : string -> float)
           (form : Part000.NewItemState) (now : string) (a : ShoppingItem)
  : ShoppingItem :=
  mkItem (id a) (Part000.new_name form) (Part000.new_quantity form)
         (Part000.parseCurrency parseFloat (Part000.new_unitPrice form))
         (Part000.new_quantity form
          * Part000.parseCurrency parseFloat (Part000.new_unitPrice form))%float
         (completed a) (createdAt a) now.

(** A form [handleAddItem] of [part_000] accepts. *)
Definition acceptable (form : Part000.NewItemState) : Prop :=
  Part000.new_name form <> "" /\
  (Part000.new_quantity form <=? 0)%float = false.

(** The item [handleAddItem] of [part_001] builds from the form. *)
Definition madeFrom001 (form : Part001.NewItemState)
           (newId created updated : string) : ShoppingItem :=
  mkItem newId (Part001.new_name form) (Part001.new_quantity form)
         (Part001.new_unitPrice form)
         (Part001.new_quantity form * Part001.new_unitPrice form)%float
         false created updated.

(** An item whose [updatedAt] alone is refreshed. *)
Definition touched (now : string) (item : ShoppingItem) : ShoppingItem :=
  mkItem (id item) (name item) (quantity item) (unitPrice item) (total item)
         (completed item) (createdAt item) now.

(** The last element of a list. *)
Definition lastOf {A} (l : list A) : option A :=
  match rev l with
  | [] => None
  | x :: _ => Some x
  end.

(** ** The JSON round trip of the snapshot *)

(** What [JSON.parse (JSON.stringify x)] returns for a number [x]:
    [stringify] writes [null] for [NaN] and the infinities and [0] for
    negative zero, and every other number so that it reads back exactly.
    [None] stands for [null]. *)
Definition jsonNumber (x : float) : option float :=
  if is_nan x || is_infinity x then None
  else if is_zero x then Some 0%float
  else Some x.

(** An item as [JSON.parse] returns it from the snapshot: a number field
    may hold [null]. *)
Record ParsedItem : Type := mkParsed {
  parsed_id : string;
  parsed_name : string;
  parsed_quantity : option float;
  parsed_unitPrice : option float;
  parsed_total : option float;
  parsed_completed : bool;
  parsed_createdAt : string;
  parsed_updatedAt : string
}.

(** [JSON.parse (JSON.stringify item)]: strings and booleans read back as
    written, numbers through [jsonNumber]. *)
Definition readBack (item : ShoppingItem) : ParsedItem :=
  mkParsed (id item) (name item) (jsonNumber (quantity item))
           (jsonNumber (unitPrice item)) (jsonNumber (total item))
           (completed item) (createdAt item) (updatedAt item).

(** The item itself as a parsed item: every number present and the same. *)
Definition unchangedItem (item : ShoppingItem) : ParsedItem :=
  mkParsed (id item) (name item) (Some (quantity item))
           (Some (unitPrice item)) (Some (total item))
           (completed item) (createdAt item) (updatedAt item).

(** A number that is finite and not negative zero. *)
Definition jsonSafeNumber (x : float) : Prop :=
  (is_nan x || is_infinity x) = false /\ (is_zero x = true -> x = 0%float).

Definition jsonSafe (item : ShoppingItem) : Prop :=
  jsonSafeNumber (quantity item) /\ jsonSafeNumber (unitPrice item) /\
  jsonSafeNumber (total item).

(** A price text of 400 digits, and a [parseFloat] that overflows on the
    texts too long for a binary64 value. *)
Definition longPrice : string := String.concat "" (repeat "9" 400).

Definition overflowing (s : string) : float :=
  if (309 <=? String.length s)%nat then infinity else 0%float.

(** ** A run of [part_001] ending in a removal *)

(** A run of [part_001]: startup online lists [eggs] from the store, the
    user adds milk while online and the create resolves to a key.  The
    two worlds are the one after the add and the one after removing, from
    there, the identifier of [bread], which the collection does not
    hold. *)
Definition part001_remove_session : Part001.World * Part001.World :=
  let w0 := exec (Part001.loadItems true (Some [(id eggs, withoutId eggs)]))
                 (Part001.initial true None) in
  let w1 := exec (setNewItem (Part001.mkForm "Milk" 2 3.5)) w0 in
  let w2 := exec (Part001.handleAddItem noon "2f1c" "1700000000000"
                                        (Resolved "Qm7rT0aBcDeFgHiJkLmN")) w1 in
  (w2, exec (Part001.handleRemoveItem Rejected (id bread)) w2).

(** ** Proof support *)

Ltac run :=
  unfold Part000.loadItems, Part001.loadItems,
    Part000.syncPendingChanges, Part001.syncPendingChanges,
    Part000.handleAddItem, Part001.handleAddItem,
    Part000.handleUpdateItem, Part001.handleUpdateItem, Part001.saveEdit,
    Part000.handleRemoveItem, Part001.handleRemoveItem,
    Part000.toggleItemCompletion, Part001.toggleItemCompletion,
    Part001.updateLocalItemId,
    Part000.handleOnline, Part001.handleOnline,
    Part000.handleOffline, Part001.handleOffline,
    Part000.setIsOnline, Part001.setIsOnline,
    exec, saveToStorage, addDoc, updateDoc, deleteDoc, getDocs, call,
    getStored, setStored, updatePendingChanges, setPendingChanges,
    updateItems, setItems, setNewItem, setIsAddingItem, setIsEditingItem,
    rendered, bind, ret in *;
  cbn [fst snd items pendingChanges isOnline newItem isAddingItem
       isEditingItem localStorage remoteCalls] in *.

Lemma world_eta {Form} (w : World Form) :
  mkWorld (items w) (pendingChanges w) (isOnline w) (newItem w)
          (isAddingItem w) (isEditingItem w) (localStorage w)
          (remoteCalls w) = w.
Proof. destruct w; reflexivity. Qed.

Lemma nonempty_length {A} (l : list A) :
  l <> [] -> (0 <? List.length l)%nat = true.
Proof.
  destruct l as [|a l]; [congruence | reflexivity].
Qed.

(** *** Startup *)

(** C4: when [loadItems] runs online, the listing resolves empty and the
    snapshot holds a non-empty list, the collection becomes that list and
    the snapshot is left as it is.  Both revisions. *)
Theorem loadItems_remote_empty_keeps_local :
  forall l : list ShoppingItem,
    l <> [] ->
    (forall w : Part000.World,
        localStorage w = Some l ->
        items (exec (Part000.loadItems true (Some [])) w) = l /\
        localStorage (exec (Part000.loadItems true (Some [])) w) = Some l) /\
    (forall w : Part001.World,
        localStorage w = Some l ->
        items (exec (Part001.loadItems true (Some [])) w) = l /\
        localStorage (exec (Part001.loadItems true (Some [])) w) = Some l).
Proof.
  intros l Hl; split; intros w Hw; run; rewrite Hw;
    rewrite (nonempty_length l Hl); cbn; auto.
Qed.

Lemma loadItems_remote_empty_keeps_local_witness :
  items (exec (Part000.loadItems true (Some []))
              (Part000.initial true (Some [milk; bread; eggs])))
  = [milk; bread; eggs] /\
  items (exec (Part001.loadItems true (Some []))
              (Part001.initial true (Some [milk; bread; eggs])))
  = [milk; bread; eggs].
Proof.
  split.
  - apply (proj1 (loadItems_remote_empty_keeps_local
                    [milk; bread; eggs] ltac:(discriminate))).
    reflexivity.
  - apply (proj2 (loadItems_remote_empty_keeps_local
                    [milk; bread; eggs] ltac:(discriminate))).
    reflexivity.
Defined.

(** *** Lists of items *)

Lemma dropId_absent (rid : string) (l : list ShoppingItem) :
  ~ In rid (map id l) -> dropId rid l = l.
Proof.
  induction l as [|x l IH]; cbn; intros Hnot; [reflexivity|].
  destruct (String.eqb_spec (id x) rid) as [Heq|Hne]; cbn.
  - exfalso; apply Hnot; left; exact Heq.
  - f_equal; apply IH; intros Hin; apply Hnot; right; exact Hin.
Qed.

Lemma dropId_idempotent (rid : string) (l : list ShoppingItem) :
  dropId rid (dropId rid l) = dropId rid l.
Proof.
  induction l as [|x l IH]; cbn; [reflexivity|].
  destruct (String.eqb_spec (id x) rid) as [Heq|Hne]; cbn; [exact IH|].
  destruct (String.eqb_spec (id x) rid) as [Heq'|_]; cbn;
    [contradiction | f_equal; exact IH].
Qed.

Lemma dropId_In (rid : string) (l : list ShoppingItem) (r : ShoppingItem) :
  In r (dropId rid l) -> In r l /\ id r <> rid.
Proof.
  unfold dropId; rewrite filter_In; intros [Hin Hb]; split; [exact Hin|].
  destruct (String.eqb_spec (id r) rid); [discriminate | assumption].
Qed.

Lemma findById_Some (target : string) (l : list ShoppingItem)
      (a : ShoppingItem) :
  findById target l = Some a -> In a l /\ id a = target.
Proof.
  unfold findById; intros H; apply find_some in H; destruct H as [Hin Hb].
  split; [exact Hin | apply String.eqb_eq; exact Hb].
Qed.

Lemma replaceById_absent (target : string) (upd : ShoppingItem)
      (l : list ShoppingItem) :
  ~ In target (map id l) -> map (replaceById target upd) l = l.
Proof.
  induction l as [|x l IH]; cbn; intros Hnot; [reflexivity|].
  unfold replaceById at 1.
  destruct (String.eqb_spec (id x) target) as [Heq|Hne].
  - exfalso; apply Hnot; left; exact Heq.
  - f_equal; apply IH; intros Hin; apply Hnot; right; exact Hin.
Qed.

(** With unique identifiers, [find] returns the one item of that id and
    the [map] that follows replaces that position only. *)
Lemma replaceById_unique (upd a : ShoppingItem) (l : list ShoppingItem) :
  NoDup (map id l) -> In a l ->
  exists l1 l2,
    l = l1 ++ a :: l2 /\
    findById (id a) l = Some a /\
    map (replaceById (id a) upd) l = l1 ++ upd :: l2.
Proof.
  induction l as [|x l IH]; cbn; intros Hnd Hin; [contradiction|].
  inversion Hnd as [|? ? Hx Hnd']; subst.
  destruct Hin as [Heq|Hin].
  - subst x. exists [], l. cbn. unfold findById, replaceById at 1; cbn.
    rewrite String.eqb_refl. repeat split.
    f_equal. apply replaceById_absent; exact Hx.
  - assert (Hne : id x <> id a).
    { intros Heq; apply Hx; rewrite Heq; apply in_map; exact Hin. }
    destruct (IH Hnd' Hin) as (l1 & l2 & Hl & Hfind & Hmap).
    exists (x :: l1), l2. unfold findById, replaceById at 1; cbn.
    apply String.eqb_neq in Hne; rewrite Hne.
    repeat split; [rewrite Hl at 1; reflexivity | exact Hfind |].
    f_equal; exact Hmap.
Qed.

Lemma sumPending_fold (l : list ShoppingItem) (acc : float) :
  fold_left (fun sum item => (sum + total item)%float)
            (filter (fun item => negb (completed item)) l) acc
  = sumPending acc l.
Proof.
  revert acc; induction l as [|x l IH]; intros acc; cbn; [reflexivity|].
  destruct (completed x); cbn; apply IH.
Qed.

(** X26: the aggregate of [part_000] is the pending sum (the totals of the
    items that are not completed, added from [0] in list order), in every
    state and so after every sequence of mutations. *)
Lemma calculateTotal_excludes_completed :
  (forall w : Part000.World,
      Part000.calculateTotal w = sumPending 0 (items w)) /\
  (forall parseFloat (ms : list Mutation) (w : Part000.World),
      let w' := fold_left (fun s m => exec (mutate parseFloat m) s) ms w in
      Part000.calculateTotal w' = sumPending 0 (items w')).
Proof.
  split; intros; unfold Part000.calculateTotal; apply sumPending_fold.
Qed.

(** C5: the aggregate of [part_001] adds the totals of completed items
    too: with [eggs] (completed, total 6) alone in the list it shows 6,
    where the pending sum is 0. *)
Theorem calculateTotal_part001_counts_completed :
  let w := mkWorld [eggs] [] true (Part001.mkForm "" 1 0) false None
                   (Some [eggs]) [] in
  completed eggs = true /\
  Part001.calculateTotal w = 6%float /\
  sumPending 0 (items w) = 0%float /\
  Part000.calculateTotal
    (mkWorld [eggs] [] true (Part000.mkForm "" 1 "") false None
             (Some [eggs]) []) = 0%float.
Proof. repeat split. Qed.

(** *** Validation *)

(** X29: [handleAddItem] returns before any effect when the form's name
    is empty (both revisions) or, in [part_000], when the quantity is not
    above zero: the whole world, remote log included, is the one it was
    called in. *)
Theorem handleAddItem_rejects_malformed :
  (forall parseFloat clock stamp reply (w : Part000.World),
      new_name_empty_or_nonpositive w ->
      exec (Part000.handleAddItem parseFloat clock stamp reply) w = w) /\
  (forall clock uuid stamp reply (w : Part001.World),
      Part001.new_name (newItem w) = "" ->
      exec (Part001.handleAddItem clock uuid stamp reply) w = w).
Proof.
  split.
  - intros parseFloat clock stamp reply w [Hname|Hq]; run.
    + rewrite Hname; reflexivity.
    + rewrite Hq, orb_true_r; reflexivity.
  - intros clock uuid stamp reply w Hname; run.
    rewrite Hname; reflexivity.
Qed.

Lemma handleAddItem_rejects_malformed_witness :
  exec (Part000.handleAddItem (fun _ => 0%float) noon "1700000000000" Rejected)
       (Part000.initial false None)
  = Part000.initial false None.
Proof.
  apply (proj1 handleAddItem_rejects_malformed).
  left; reflexivity.
Defined.

(** C7: [handleUpdateItem] of [part_000] does not look at the form that
    [handleAddItem] guards.  Saving an edit of [eggs] with an empty name
    and quantity 0 is not rejected: it rewrites the collection and the
    snapshot and queues the record, and the item is left with an empty
    name. *)
Lemma handleUpdateItem_accepts_malformed :
  let parseFloat := fun _ : string => 0%float in
  let w := mkWorld [eggs] [] false (Part000.mkForm "" 0 "") false
                   (Some (id eggs)) (Some [eggs]) [] in
  let w' := exec (Part000.handleUpdateItem parseFloat noon Rejected (id eggs)) w in
  new_name_empty_or_nonpositive w /\
  (Part000.new_quantity (newItem w) <=? 0)%float = true /\
  items w' <> items w /\
  localStorage w' <> localStorage w /\
  pendingChanges w' <> pendingChanges w /\
  map name (items w') = [""].
Proof.
  cbv zeta.
  split; [left; reflexivity|].
  split; [reflexivity|].
  repeat split; try (vm_compute; discriminate).
Qed.

(** The add of [part_001] checks the name only: quantity 0 is stored. *)
Lemma part001_handleAddItem_accepts_zero_quantity :
  let w := mkWorld [] [] false (Part001.mkForm "Milk" 0 3.5) true None None [] in
  map quantity
      (items (exec (Part001.handleAddItem noon "uuid" "1700000000000" Rejected) w))
  = [0%float].
Proof. reflexivity. Qed.

(** *** Toggle *)

(** C9: with unique identifiers, toggling the id of an item of the
    collection replaces exactly that position by the item with
    [completed] negated and [updatedAt] refreshed ([toggled]); the other
    positions, and hence the length, are as before.  The snapshot is
    written with the same list.  Both revisions. *)
Theorem toggle_changes_only_target :
  forall (clock : nat -> string) (reply : Reply) (a : ShoppingItem),
    (forall w : Part000.World,
        NoDup (map id (items w)) -> In a (items w) ->
        let w' := exec (Part000.toggleItemCompletion clock reply (id a)) w in
        exists l1 l2,
          items w = l1 ++ a :: l2 /\
          items w' = l1 ++ toggled (clock 0) a :: l2 /\
          localStorage w' = Some (items w') /\
          List.length (items w') = List.length (items w)) /\
    (forall w : Part001.World,
        NoDup (map id (items w)) -> In a (items w) ->
        let w' := exec (Part001.toggleItemCompletion clock reply (id a)) w in
        exists l1 l2,
          items w = l1 ++ a :: l2 /\
          items w' = l1 ++ toggled (clock 0) a :: l2 /\
          localStorage w' = Some (items w') /\
          List.length (items w') = List.length (items w)).
Proof.
  intros clock reply a; split; intros w Hnd Hin w'; subst w';
    destruct (replaceById_unique (toggled (clock 0) a) a (items w) Hnd Hin)
      as (l1 & l2 & Hl & Hfind & Hmap);
    exists l1, l2; run; rewrite Hfind; fold (toggled (clock 0) a); run.
  - destruct (isOnline w && negb (includes "local-" (id a)));
      [destruct reply|]; cbn; rewrite Hmap;
      (repeat split; [exact Hl | rewrite Hl, !length_app; reflexivity]).
  - change (id (toggled (clock 0) a)) with (id a). rewrite Hmap.
    destruct (isOnline w); [destruct reply|]; cbn;
      (repeat split; [exact Hl | rewrite Hl, !length_app; reflexivity]).
Qed.

Lemma toggle_changes_only_target_witness :
  exists l1 l2,
    [milk; eggs; bread] = l1 ++ eggs :: l2 /\
    items (exec (Part000.toggleItemCompletion noon Rejected (id eggs))
                (mkWorld [milk; eggs; bread] [] false (Part000.mkForm "" 1 "")
                         false None (Some [milk; eggs; bread]) []))
    = l1 ++ toggled (noon 0) eggs :: l2.
Proof.
  destruct (proj1 (toggle_changes_only_target noon Rejected eggs)
                  (mkWorld [milk; eggs; bread] [] false (Part000.mkForm "" 1 "")
                           false None (Some [milk; eggs; bread]) []))
    as (l1 & l2 & H1 & H2 & _).
  - repeat constructor; cbn; intuition discriminate.
  - cbn; auto.
  - exists l1, l2; split; [exact H1 | exact H2].
Defined.

(** *** Remove *)

Lemma handleRemoveItem_state (reply : Reply) (rid : string) :
  (forall w : Part000.World,
      let w' := exec (Part000.handleRemoveItem reply rid) w in
      items w' = dropId rid (items w) /\
      localStorage w' = Some (dropId rid (items w)) /\
      pendingChanges w' = dropId rid (pendingChanges w)) /\
  (forall w : Part001.World,
      let w' := exec (Part001.handleRemoveItem reply rid) w in
      items w' = dropId rid (items w) /\
      localStorage w' = Some (dropId rid (items w)) /\
      pendingChanges w' = dropId rid (pendingChanges w)).
Proof.
  split; intros w; run;
    destruct (isOnline w && negb (includes "local-" rid)); cbn; auto.
Qed.

(** X30: removing an id the collection does not hold, in a state whose
    snapshot holds the list of the collection, leaves the collection and
    the snapshot's content as they were and only drops the queue's records
    of that id; and in any state a second removal of the same id changes
    nothing of the three.  Both revisions. *)
Theorem handleRemoveItem_absent_id :
  forall (reply reply' : Reply) (rid : string),
    (forall w : Part000.World,
        let w1 := exec (Part000.handleRemoveItem reply rid) w in
        let w2 := exec (Part000.handleRemoveItem reply' rid) w1 in
        (localData w = items w -> ~ In rid (map id (items w)) ->
         items w1 = items w /\
         localData w1 = localData w /\
         pendingChanges w1 = dropId rid (pendingChanges w)) /\
        (items w2 = items w1 /\
         localStorage w2 = localStorage w1 /\
         pendingChanges w2 = pendingChanges w1)) /\
    (forall w : Part001.World,
        let w1 := exec (Part001.handleRemoveItem reply rid) w in
        let w2 := exec (Part001.handleRemoveItem reply' rid) w1 in
        (localData w = items w -> ~ In rid (map id (items w)) ->
         items w1 = items w /\
         localData w1 = localData w /\
         pendingChanges w1 = dropId rid (pendingChanges w)) /\
        (items w2 = items w1 /\
         localStorage w2 = localStorage w1 /\
         pendingChanges w2 = pendingChanges w1)).
Proof.
  intros reply reply' rid; split; intros w w1 w2.
  - destruct (proj1 (handleRemoveItem_state reply rid) w) as (Hi & Hs & Hp).
    destruct (proj1 (handleRemoveItem_state reply' rid) w1) as (Hi' & Hs' & Hp').
    fold w1 in Hi, Hs, Hp. fold w2 in Hi', Hs', Hp'.
    split.
    + intros Hsync Habsent. unfold localData at 1. rewrite Hi, Hs, Hp.
      rewrite (dropId_absent _ _ Habsent). auto.
    + rewrite Hi', Hs', Hp', Hi, Hs, Hp, !dropId_idempotent. auto.
  - destruct (proj2 (handleRemoveItem_state reply rid) w) as (Hi & Hs & Hp).
    destruct (proj2 (handleRemoveItem_state reply' rid) w1) as (Hi' & Hs' & Hp').
    fold w1 in Hi, Hs, Hp. fold w2 in Hi', Hs', Hp'.
    split.
    + intros Hsync Habsent. unfold localData at 1. rewrite Hi, Hs, Hp.
      rewrite (dropId_absent _ _ Habsent). auto.
    + rewrite Hi', Hs', Hp', Hi, Hs, Hp, !dropId_idempotent. auto.
Qed.

Lemma handleRemoveItem_absent_id_witness :
  let w := mkWorld [milk; eggs] [milk; bread] false (Part000.mkForm "" 1 "")
                   false None (Some [milk; eggs]) [] in
  let w1 := exec (Part000.handleRemoveItem Rejected (id bread)) w in
  items w1 = items w /\
  localData w1 = localData w /\
  pendingChanges w1 = [milk].
Proof.
  cbv zeta.
  apply (proj1 (proj1 (handleRemoveItem_absent_id Rejected Rejected (id bread))
                      (mkWorld [milk; eggs] [milk; bread] false
                               (Part000.mkForm "" 1 "") false None
                               (Some [milk; eggs]) []))).
  - reflexivity.
  - cbn; intuition discriminate.
Defined.


(** *** Replay in [part_000] *)

Lemma storedAfter_cons o n rs st :
  storedAfter rs (Some (map (renameId o n) (match st with Some l => l | None => [] end)))
  = storedAfter ((o, n) :: rs) st.
Proof.
  destruct rs; reflexivity.
Qed.

Lemma syncLoop_spec : forall reply queue i failed (w : Part000.World),
  Part000.syncLoop reply i queue failed w =
  (failed ++ failedRecords reply i queue,
   mkWorld (applyRenames (renamesOf reply i queue) (items w))
           (pendingChanges w) (isOnline w) (newItem w) (isAddingItem w)
           (isEditingItem w)
           (storedAfter (renamesOf reply i queue) (localStorage w))
           (remoteCalls w ++ map callOf queue)).
Proof.
  intros reply queue; induction queue as [|item rest IH]; intros i failed w.
  - cbn. unfold ret. rewrite !app_nil_r, world_eta. reflexivity.
  - cbn [Part000.syncLoop failedRecords renamesOf map].
    unfold callOf at 1, isLocalId.
    unfold bind at 1.
    destruct (includes "local-" (id item)) eqn:Hloc; cbn [negb];
      destruct (reply i) as [docRef|] eqn:Hr; run; rewrite IH; run.
    all: cbn [isRejected]; rewrite <- ?app_assoc; cbn [app]; try reflexivity.
    rewrite storedAfter_cons; reflexivity.
Qed.

Lemma sync_spec (reply : nat -> Reply) (w : Part000.World) :
  exec (Part000.syncPendingChanges reply) w =
  let rs := renamesOf reply 0 (pendingChanges w) in
  mkWorld (applyRenames rs (items w))
          (failedRecords reply 0 (pendingChanges w))
          (isOnline w) (newItem w) (isAddingItem w) (isEditingItem w)
          (storedAfter rs (localStorage w))
          (remoteCalls w ++ map callOf (pendingChanges w)).
Proof.
  unfold Part000.syncPendingChanges, exec, bind, rendered.
  cbv zeta.
  destruct (pendingChanges w) as [|item rest] eqn:Hq.
  - cbn. rewrite app_nil_r, <- Hq. symmetry; apply world_eta.
  - cbn [List.length Nat.eqb]. rewrite syncLoop_spec.
    reflexivity.
Qed.

Lemma applyRenames_map (rs : list (string * string)) (l : list ShoppingItem) :
  applyRenames rs l = map (renameAll rs) l.
Proof.
  revert l; induction rs as [|p rs IH]; intros l; cbn.
  - symmetry; apply map_id.
  - unfold applyRenames in IH. rewrite IH, map_map. reflexivity.
Qed.

Lemma localData_storedAfter {Form} (rs : list (string * string)) (w w' : World Form) :
  localStorage w' = storedAfter rs (localStorage w) ->
  localData w' = applyRenames rs (localData w).
Proof.
  unfold localData; intros ->. destruct rs; reflexivity.
Qed.

Lemma renameId_data (o n : string) (a : ShoppingItem) :
  withoutId (renameId o n a) = withoutId a.
Proof. unfold renameId; destruct (id a =? o); reflexivity. Qed.

Lemma renameAll_data (rs : list (string * string)) (a : ShoppingItem) :
  withoutId (renameAll rs a) = withoutId a.
Proof.
  revert a; induction rs as [|p rs IH]; intros a; cbn; [reflexivity|].
  unfold renameAll in IH. rewrite IH. apply renameId_data.
Qed.

(** Every replacement of a replay goes from a local-space id to the key
    of a resolved [addDoc]. *)
Lemma renamesOf_origin (reply : nat -> Reply) (queue : list ShoppingItem) :
  forall i o n,
    In (o, n) (renamesOf reply i queue) ->
    isLocalId o = true /\
    exists k r, nth_error queue k = Some r /\ id r = o /\
                reply (i + k) = Resolved n.
Proof.
  induction queue as [|item rest IH]; intros i o n Hin; cbn in Hin;
    [contradiction|].
  assert (Hrest : In (o, n) (renamesOf reply (S i) rest) ->
                  isLocalId o = true /\
                  exists k r, nth_error (item :: rest) k = Some r /\ id r = o /\
                              reply (i + k) = Resolved n).
  { intros H. destruct (IH _ _ _ H) as (Hl & k & r & Hk & Hid & Hr).
    split; [exact Hl|]. exists (S k), r. rewrite Nat.add_succ_r. auto. }
  destruct (reply i) as [docRef|] eqn:Hr; [|auto].
  destruct (isLocalId (id item)) eqn:Hloc; [|auto].
  destruct Hin as [Heq|Hin]; [|auto].
  inversion Heq; subst. split; [exact Hloc|].
  exists 0, item. rewrite Nat.add_0_r. auto.
Qed.

Lemma renameAll_untouched (rs : list (string * string)) (a : ShoppingItem) :
  (forall o n, In (o, n) rs -> o <> id a) -> renameAll rs a = a.
Proof.
  revert a; induction rs as [|[o n] rs IH]; intros a H; cbn; [reflexivity|].
  unfold renameId. destruct (String.eqb_spec (id a) o) as [Heq|Hne].
  - exfalso. apply (H o n); [left; reflexivity | symmetry; exact Heq].
  - apply IH. intros o' n' Hin. apply (H o' n'). right; exact Hin.
Qed.



(** *** Replay: which records stay queued *)

Lemma failedRecords_In (reply : nat -> Reply) (queue : list ShoppingItem) :
  forall i r,
    In r (failedRecords reply i queue) <->
    exists k, nth_error queue k = Some r /\ reply (i + k) = Rejected.
Proof.
  induction queue as [|item rest IH]; intros i r; cbn.
  - split; [contradiction | intros ([|k] & Hk & _); discriminate].
  - split.
    + intros H.
      assert (Hrest : In r (failedRecords reply (S i) rest) ->
                      exists k, nth_error (item :: rest) k = Some r /\
                                reply (i + k) = Rejected).
      { intros Hin. apply IH in Hin. destruct Hin as (k & Hk & Hr).
        exists (S k). rewrite Nat.add_succ_r. auto. }
      destruct (reply i) eqn:Hri; cbn in H; [auto|].
      destruct H as [Heq|Hin]; [|auto].
      subst r. exists 0. rewrite Nat.add_0_r. auto.
    + intros ([|k] & Hk & Hr); cbn in Hk.
      * inversion Hk; subst. rewrite Nat.add_0_r in Hr. rewrite Hr.
        left; reflexivity.
      * assert (Hin : In r (failedRecords reply (S i) rest)).
        { apply IH. exists k. rewrite Nat.add_succ_r in Hr. auto. }
        destruct (isRejected (reply i)); [right|]; exact Hin.
Qed.

Lemma renamesOf_local (reply : nat -> Reply) (queue : list ShoppingItem)
      (a : ShoppingItem) :
  isLocalId (id a) = false ->
  renameAll (renamesOf reply 0 queue) a = a.
Proof.
  intros Ha. apply renameAll_untouched. intros o n Hin Ho.
  apply renamesOf_origin in Hin. destruct Hin as [Hl _]. congruence.
Qed.

Lemma Forall2_map_same {A} (R : A -> A -> Prop) (f : A -> A) (l : list A) :
  (forall a, R a (f a)) -> Forall2 R l (map f l).
Proof.
  intros H; induction l; cbn; constructor; auto.
Qed.

(** C1 (as amended): after a replay of [part_000] the queue holds exactly
    the records whose remote call was rejected, in their order: a record
    stays queued when its call is rejected and is dropped when it
    resolves.  The collection keeps its length, order and every data
    field; items whose identifier is not of the local space are untouched,
    and the only change is the identifier of a created local record.  With
    two records queued, the first resolved and the second rejected, the
    queue is the second record alone and the collection is the one before
    the replay with, when the first record is of the local space, its
    identifier replaced by the new key. *)
Theorem sync_keeps_exactly_failed :
  forall (reply : nat -> Reply) (w : Part000.World),
    let w' := exec (Part000.syncPendingChanges reply) w in
    pendingChanges w' = failedRecords reply 0 (pendingChanges w) /\
    (forall r, In r (pendingChanges w') <->
               exists k, nth_error (pendingChanges w) k = Some r /\
                         reply k = Rejected) /\
    Forall2 (fun a a' => withoutId a' = withoutId a) (items w) (items w') /\
    (forall p a, nth_error (items w) p = Some a -> isLocalId (id a) = false ->
                 nth_error (items w') p = Some a) /\
    (forall a b d,
        pendingChanges w = [a; b] ->
        reply 0 = Resolved d -> reply 1 = Rejected ->
        pendingChanges w' = [b] /\
        items w' = (if isLocalId (id a)
                    then map (renameId (id a) d) (items w)
                    else items w)).
Proof.
  intros reply w w'; subst w'. rewrite sync_spec. cbv zeta.
  cbn [items pendingChanges].
  split; [reflexivity|].
  split; [intros r; apply (failedRecords_In reply (pendingChanges w) 0 r)|].
  rewrite applyRenames_map.
  split; [apply Forall2_map_same; intros a; apply renameAll_data|].
  split.
  - intros p a Hp Ha. rewrite nth_error_map, Hp. cbn.
    rewrite renamesOf_local by exact Ha. reflexivity.
  - intros a b d Hq H0 H1. rewrite Hq. cbn. rewrite H0, H1. cbn.
    split; [reflexivity|].
    destruct (isLocalId (id a)); cbn; [reflexivity | apply map_id].
Qed.

Lemma sync_keeps_exactly_failed_witness :
  let w := mkWorld [eggs; milk] [eggs; milk] true (Part000.mkForm "" 1 "")
                   false None (Some [eggs; milk]) [] in
  let w' := exec (Part000.syncPendingChanges (firstOnly "ignored")) w in
  pendingChanges w' = [milk] /\ items w' = items w.
Proof.
  cbv zeta.
  apply (proj2 (proj2 (proj2 (proj2
           (sync_keeps_exactly_failed (firstOnly "ignored")
              (mkWorld [eggs; milk] [eggs; milk] true (Part000.mkForm "" 1 "")
                       false None (Some [eggs; milk]) [])))))
           eggs milk "ignored"); reflexivity.
Defined.

(** C1 (as stated) fails on the last point: with two items added offline,
    the first created remotely and the second rejected, the first leaves
    the queue and the second stays, but the collection is not the one
    before the replay, since the first item now carries the remote key. *)
Lemma sync_partial_failure_renames_first :
  let w := mkWorld [milk; bread] [milk; bread] true (Part000.mkForm "" 1 "")
                   false None (Some [milk; bread]) [] in
  let w' := exec (Part000.syncPendingChanges (firstOnly "Zq3RemoteKey000000001")) w in
  pendingChanges w' = [bread] /\
  items w' <> items w /\
  map id (items w') = ["Zq3RemoteKey000000001"; id bread].
Proof.
  cbv zeta. repeat split. vm_compute. discriminate.
Qed.

(** *** Replay: identifier remapping *)

Section Remap.
Variable reply : nat -> Reply.
Variable queue : list ShoppingItem.
Variables (k : nat) (r : ShoppingItem) (n : string).
Hypothesis remoteKeys : forall j d, reply j = Resolved d -> isLocalId d = false.
Hypothesis queued : nth_error queue k = Some r.
Hypothesis localRecord : isLocalId (id r) = true.
Hypothesis created : reply k = Resolved n.
Hypothesis firstCreated :
  forall j r', j < k -> nth_error queue j = Some r' -> id r' = id r ->
               reply j = Rejected.





End Remap.





(** *** Mutations of part_000: derived total and remote calls *)

(** What each mutation of [part_000] leaves in [items] and appends to the
    remote log. *)
Lemma handleAddItem_effect parseFloat clock stamp reply (w : Part000.World) :
  let w' := exec (Part000.handleAddItem parseFloat clock stamp reply) w in
  let form := newItem w in
  let price := Part000.parseCurrency parseFloat (Part000.new_unitPrice form) in
  (items w' = items w /\ remoteCalls w' = remoteCalls w) \/
  (exists newId created updated issued,
      items w' = items w ++
                 [mkItem newId (Part000.new_name form) (Part000.new_quantity form)
                         price (Part000.new_quantity form * price)%float false
                         created updated] /\
      remoteCalls w' = remoteCalls w ++ issued /\
      forallb remoteSafe issued = true).
Proof.
  run.
  destruct ((Part000.new_name (newItem w) =? "")
            || (Part000.new_quantity (newItem w) <=? 0)%float);
    [left; auto | right].
  destruct (isOnline w); [destruct reply|]; cbn.
  - do 3 eexists; eexists [_]; repeat split.
  - do 3 eexists; eexists [_]; repeat split.
  - do 3 eexists; exists []; rewrite app_nil_r; repeat split.
Qed.

Lemma handleUpdateItem_effect parseFloat clock reply itemId (w : Part000.World) :
  let w' := exec (Part000.handleUpdateItem parseFloat clock reply itemId) w in
  let form := newItem w in
  let price := Part000.parseCurrency parseFloat (Part000.new_unitPrice form) in
  match findById itemId (items w) with
  | None => w' = w
  | Some a =>
      let newData :=
        mkItem (id a) (Part000.new_name form) (Part000.new_quantity form)
               price (Part000.new_quantity form * price)%float
               (completed a) (createdAt a) (clock 0) in
      items w' = map (replaceById itemId newData) (items w) /\
      remoteCalls w' =
      remoteCalls w ++
        (if isOnline w && negb (includes "local-" itemId)
         then [UpdateDoc itemId (withoutId newData)] else [])
  end.
Proof.
  run. destruct (findById itemId (items w)) as [a|] eqn:Hf; [|reflexivity].
  apply findById_Some in Hf. destruct Hf as [_ Hid].
  run. rewrite Hid.
  destruct (isOnline w && negb (includes "local-" itemId));
    [destruct reply|]; cbn; rewrite ?app_nil_r; auto.
Qed.

Lemma toggleItemCompletion_effect clock reply target (w : Part000.World) :
  let w' := exec (Part000.toggleItemCompletion clock reply target) w in
  match findById target (items w) with
  | None => w' = w
  | Some a =>
      items w' = map (replaceById target (toggled (clock 0) a)) (items w) /\
      remoteCalls w' =
      remoteCalls w ++
        (if isOnline w && negb (includes "local-" target)
         then [UpdateDoc target (withoutId (toggled (clock 0) a))] else [])
  end.
Proof.
  run. destruct (findById target (items w)) as [a|] eqn:Hf; [|reflexivity].
  apply findById_Some in Hf. destruct Hf as [_ Hid].
  unfold toggled. run. rewrite Hid.
  destruct (isOnline w && negb (includes "local-" target));
    [destruct reply|]; cbn; rewrite ?app_nil_r; auto.
Qed.

Lemma handleRemoveItem_calls reply rid (w : Part000.World) :
  remoteCalls (exec (Part000.handleRemoveItem reply rid) w) =
  remoteCalls w ++
    (if isOnline w && negb (includes "local-" rid) then [DeleteDoc rid] else []).
Proof.
  run. destruct (isOnline w && negb (includes "local-" rid)); cbn;
    rewrite ?app_nil_r; reflexivity.
Qed.

Lemma Forall_replaceById (P : ShoppingItem -> Prop) target upd l :
  Forall P l -> P upd -> Forall P (map (replaceById target upd) l).
Proof.
  intros Hl Hu. induction Hl; cbn; constructor; auto.
  unfold replaceById. destruct (id x =? target); assumption.
Qed.

Lemma Forall_dropId (P : ShoppingItem -> Prop) rid l :
  Forall P l -> Forall P (dropId rid l).
Proof.
  rewrite !Forall_forall. intros H x Hin. apply dropId_In in Hin.
  apply H, Hin.
Qed.

Lemma mutate_preserves_totalOk parseFloat (m : Mutation) (w : Part000.World) :
  Forall totalOk (items w) ->
  Forall totalOk (items (exec (mutate parseFloat m) w)).
Proof.
  intros Hinv. destruct m as [clock stamp reply|clock reply itemId
                              |reply rid|clock reply target]; cbn [mutate].
  - destruct (handleAddItem_effect parseFloat clock stamp reply w)
      as [[Hi _]|(newId & c & u & issued & Hi & _)]; rewrite Hi; [exact Hinv|].
    apply Forall_app; split; [exact Hinv|].
    constructor; [reflexivity | constructor].
  - pose proof (handleUpdateItem_effect parseFloat clock reply itemId w) as H.
    cbv zeta in H. destruct (findById itemId (items w)) as [a|];
      [destruct H as [Hi _]; rewrite Hi | rewrite H; exact Hinv].
    apply Forall_replaceById; [exact Hinv | reflexivity].
  - rewrite (proj1 (proj1 (handleRemoveItem_state reply rid) w)).
    apply Forall_dropId; exact Hinv.
  - pose proof (toggleItemCompletion_effect clock reply target w) as H.
    cbv zeta in H. destruct (findById target (items w)) as [a|] eqn:Hf;
      [destruct H as [Hi _]; rewrite Hi | rewrite H; exact Hinv].
    apply Forall_replaceById; [exact Hinv|].
    apply findById_Some in Hf. destruct Hf as [Hin _].
    rewrite Forall_forall in Hinv. exact (Hinv a Hin).
Qed.

(** The item an update writes has its total computed from the form,
    whatever the collection held before. *)
Lemma update_recomputes_total parseFloat clock reply itemId (w : Part000.World) :
  forall a, In a (items (exec (Part000.handleUpdateItem parseFloat clock reply itemId) w)) ->
            id a = itemId ->
            total a = (Part000.new_quantity (newItem w)
                       * Part000.parseCurrency parseFloat
                           (Part000.new_unitPrice (newItem w)))%float /\
            totalOk a.
Proof.
  intros a Hin Hid.
  pose proof (handleUpdateItem_effect parseFloat clock reply itemId w) as H.
  cbv zeta in H. destruct (findById itemId (items w)) as [b|] eqn:Hf.
  - destruct H as [Hi _]. rewrite Hi in Hin. apply in_map_iff in Hin.
    destruct Hin as (x & Hx & _). unfold replaceById in Hx.
    destruct (String.eqb_spec (id x) itemId) as [_|Hne]; subst a;
      [split; reflexivity | contradiction].
  - rewrite H in Hin. unfold findById in Hf.
    pose proof (find_none _ _ Hf a Hin) as Hn. cbn in Hn.
    apply String.eqb_neq in Hn. contradiction.
Qed.

(** C6: when every item of the collection has
    [total = quantity * unitPrice], so has every item after an add, an
    update, a remove or a toggle of [part_000], and after any sequence of
    them: the handlers write [total] only as that product, computed from
    the quantity and the price they store.  In particular the item an
    update rewrites has its total recomputed from the new quantity and
    price. *)
Theorem mutations_keep_total_derived :
  forall parseFloat (w : Part000.World),
    Forall totalOk (items w) ->
    (forall m, Forall totalOk (items (exec (mutate parseFloat m) w))) /\
    (forall ms,
        Forall totalOk
          (items (fold_left (fun s m => exec (mutate parseFloat m) s) ms w))) /\
    (forall clock reply itemId a,
        In a (items (exec (mutate parseFloat (Update clock reply itemId)) w)) ->
        id a = itemId ->
        total a = (Part000.new_quantity (newItem w)
                   * Part000.parseCurrency parseFloat
                       (Part000.new_unitPrice (newItem w)))%float /\
        totalOk a).
Proof.
  intros parseFloat w Hinv. split; [|split].
  - intros m. apply mutate_preserves_totalOk; exact Hinv.
  - intros ms. revert w Hinv. induction ms as [|m ms IH]; intros w Hinv; cbn.
    + exact Hinv.
    + apply IH. apply mutate_preserves_totalOk; exact Hinv.
  - intros clock reply itemId a Hin Hid.
    apply (update_recomputes_total parseFloat clock reply itemId w a Hin Hid).
Qed.

Lemma mutations_keep_total_derived_witness :
  Forall totalOk
    (items
       (exec (mutate (fun _ => 4.25%float)
                     (Update noon Rejected (id milk)))
             (mkWorld [milk; eggs] [] false (Part000.mkForm "Milk" 3 "4,25")
                      false (Some (id milk)) (Some [milk; eggs]) []))).
Proof.
  apply (proj1 (mutations_keep_total_derived (fun _ => 4.25%float)
                  (mkWorld [milk; eggs] [] false (Part000.mkForm "Milk" 3 "4,25")
                           false (Some (id milk)) (Some [milk; eggs]) [])
                  ltac:(repeat constructor))).
Defined.

(** X25: in [part_000] no mutation and no replay addresses a local-space
    identifier with [updateDoc] or [deleteDoc]: every call a handler adds
    to the log passes [remoteSafe]. *)
Lemma part000_remote_calls_safe :
  (forall parseFloat (m : Mutation) (w : Part000.World),
      exists issued,
        remoteCalls (exec (mutate parseFloat m) w) = remoteCalls w ++ issued /\
        forallb remoteSafe issued = true) /\
  (forall reply (w : Part000.World),
      exists issued,
        remoteCalls (exec (Part000.syncPendingChanges reply) w)
        = remoteCalls w ++ issued /\
        forallb remoteSafe issued = true).
Proof.
  split.
  - intros parseFloat m w.
    destruct m as [clock stamp reply|clock reply itemId
                   |reply rid|clock reply target]; cbn [mutate].
    + destruct (handleAddItem_effect parseFloat clock stamp reply w)
        as [[_ Hc]|(newId & c & u & issued & _ & Hc & Hs)].
      * exists []. rewrite app_nil_r. auto.
      * exists issued. auto.
    + pose proof (handleUpdateItem_effect parseFloat clock reply itemId w) as H.
      cbv zeta in H. destruct (findById itemId (items w)) as [a|].
      * destruct H as [_ Hc]. eexists; split; [exact Hc|].
        destruct (isOnline w); cbn; [|reflexivity].
        destruct (includes "local-" itemId) eqn:Hl; cbn; unfold isLocalId;
          rewrite ?Hl; reflexivity.
      * exists []. rewrite H, app_nil_r. auto.
    + eexists; split; [apply handleRemoveItem_calls|].
      destruct (isOnline w); cbn; [|reflexivity].
      destruct (includes "local-" rid) eqn:Hl; cbn; unfold isLocalId;
        rewrite ?Hl; reflexivity.
    + pose proof (toggleItemCompletion_effect clock reply target w) as H.
      cbv zeta in H. destruct (findById target (items w)) as [a|].
      * destruct H as [_ Hc]. eexists; split; [exact Hc|].
        destruct (isOnline w); cbn; [|reflexivity].
        destruct (includes "local-" target) eqn:Hl; cbn; unfold isLocalId;
          rewrite ?Hl; reflexivity.
      * exists []. rewrite H, app_nil_r. auto.
  - intros reply w. exists (map callOf (pendingChanges w)).
    rewrite sync_spec. split; [reflexivity|].
    induction (pendingChanges w) as [|r q IH]; cbn; [reflexivity|].
    rewrite IH, andb_true_r. unfold callOf.
    destruct (isLocalId (id r)) eqn:Hl; cbn; [reflexivity|].
    rewrite Hl. reflexivity.
Qed.

(** C3: in [part_001] the update path has no guard on the identifier.
    In the session [part001_session] the device is online and the item
    still carries its local identifier; ticking it calls [updateDoc] on
    that identifier. *)
Theorem part001_updates_local_id_remotely :
  let before := fst part001_session in
  let after := snd part001_session in
  isOnline before = true /\
  map id (items before) = ["local-1700000000000"] /\
  isLocalId "local-1700000000000" = true /\
  remoteCalls after =
    remoteCalls before ++
    [UpdateDoc "local-1700000000000"
               (mkData "Milk" 2 3.5 7 true (noon 0) (noon 0))] /\
  forallb remoteSafe (remoteCalls after) = false.
Proof.
  cbv zeta. repeat split.
Qed.

(** *** Remove, then replay *)

Lemma part001_loadItems_calls navigatorOnLine listing (w : Part001.World) :
  remoteCalls (exec (Part001.loadItems navigatorOnLine listing) w) =
  remoteCalls w ++ (if navigatorOnLine then [GetDocs] else []).
Proof.
  run. destruct navigatorOnLine; [destruct listing as [[|f fs]|]|];
    destruct (localStorage w) as [[|x xs]|]; cbn; rewrite ?app_nil_r;
    reflexivity.
Qed.

(** The replay loop of [part_001] issues the calls of a prefix of the
    queue: it stops at the first rejection. *)
Lemma part001_syncLoop_calls closureItems reply (queue : list ShoppingItem) :
  forall i (w : Part001.World),
  exists k,
    remoteCalls (snd (Part001.syncLoop closureItems reply i queue w)) =
    remoteCalls w ++ map callOf (firstn k queue) /\
    pendingChanges (snd (Part001.syncLoop closureItems reply i queue w)) =
    pendingChanges w.
Proof.
  induction queue as [|item rest IH]; intros i w.
  - exists 0. cbn. rewrite app_nil_r. auto.
  - cbn [Part001.syncLoop].
    change (includes "local-" (id item)) with (isLocalId (id item)).
    assert (Hcall : callOf item =
                    if isLocalId (id item) then AddDoc (withoutId item)
                    else UpdateDoc (id item) (withoutId item))
      by reflexivity.
    destruct (isLocalId (id item)); cbn [negb];
      destruct (reply i) as [docRef|]; run;
      try solve [exists 1; cbn [firstn map]; rewrite Hcall; auto].
    all: match goal with
         | |- context [Part001.syncLoop _ _ _ _ ?w1] =>
             destruct (IH (S i) w1) as (k & Hk & Hp)
         end;
      exists (S k); rewrite Hk, Hp;
      cbn [firstn map remoteCalls pendingChanges];
      rewrite Hcall, <- app_assoc; auto.
Qed.

Lemma part001_sync_calls reply navigatorOnLine listing (w : Part001.World) :
  exists k tail,
    remoteCalls (exec (Part001.syncPendingChanges reply navigatorOnLine listing) w)
    = remoteCalls w ++ map callOf (firstn k (pendingChanges w)) ++ tail /\
    (tail = [] \/ tail = [GetDocs]).
Proof.
  unfold Part001.syncPendingChanges, exec, bind, rendered. cbv zeta.
  destruct (part001_syncLoop_calls (items w) reply (pendingChanges w) 0 w)
    as (k & Hk & _).
  destruct (Part001.syncLoop (items w) reply 0 (pendingChanges w) w)
    as [finished w1] eqn:Hloop.
  cbn [snd] in Hk. exists k.
  destruct finished.
  - unfold setPendingChanges.
    match goal with
    | |- context [Part001.loadItems _ _ ?w2] =>
        pose proof (part001_loadItems_calls navigatorOnLine listing w2) as Hl
    end.
    unfold exec in Hl. cbn [remoteCalls] in Hl. rewrite Hl, Hk.
    exists (if navigatorOnLine then [GetDocs] else []).
    rewrite <- app_assoc. split; [reflexivity|].
    destruct navigatorOnLine; auto.
  - exists []. unfold ret; cbn. rewrite Hk, app_nil_r. auto.
Qed.

Lemma In_prefix {A} (k : nat) (l : list A) (x : A) :
  In x (firstn k l) -> In x l.
Proof.
  revert l; induction k as [|k IH]; intros [|y l]; cbn; try tauto.
  intros [H|H]; [left; exact H | right; apply IH; exact H].
Qed.

Lemma callOf_create (r : ShoppingItem) (data : ItemData) :
  callOf r = AddDoc data -> isLocalId (id r) = true /\ data = withoutId r.
Proof.
  unfold callOf. destruct (isLocalId (id r)); intros H; inversion H; auto.
Qed.

(** C8: after [handleRemoveItem] no queued record carries the removed
    identifier, and every [addDoc] a following replay issues sends the
    data of a record still queued, all of which carry another identifier:
    no create is issued for the removed item.  Both revisions. *)
Theorem remove_cancels_pending :
  forall (reply : Reply) (rid : string),
    (forall w : Part000.World,
        let w1 := exec (Part000.handleRemoveItem reply rid) w in
        (forall r, In r (pendingChanges w1) -> id r <> rid) /\
        (forall replies,
            exists issued,
              remoteCalls (exec (Part000.syncPendingChanges replies) w1)
              = remoteCalls w1 ++ issued /\
              forall data,
                In (AddDoc data) issued ->
                exists r, In r (pendingChanges w1) /\ data = withoutId r /\
                          isLocalId (id r) = true /\ id r <> rid)) /\
    (forall w : Part001.World,
        let w1 := exec (Part001.handleRemoveItem reply rid) w in
        (forall r, In r (pendingChanges w1) -> id r <> rid) /\
        (forall replies navigatorOnLine listing,
            exists issued,
              remoteCalls (exec (Part001.syncPendingChanges
                                   replies navigatorOnLine listing) w1)
              = remoteCalls w1 ++ issued /\
              forall data,
                In (AddDoc data) issued ->
                exists r, In r (pendingChanges w1) /\ data = withoutId r /\
                          isLocalId (id r) = true /\ id r <> rid)).
Proof.
  intros reply rid; split; intros w w1.
  - assert (Hq : forall r, In r (pendingChanges w1) -> id r <> rid).
    { intros r Hin. subst w1.
      rewrite (proj2 (proj2 (proj1 (handleRemoveItem_state reply rid) w))) in Hin.
      apply dropId_In in Hin. apply Hin. }
    split; [exact Hq|].
    intros replies. exists (map callOf (pendingChanges w1)).
    rewrite sync_spec. split; [reflexivity|].
    intros data Hin. apply in_map_iff in Hin. destruct Hin as (r & Hc & Hr).
    apply callOf_create in Hc. destruct Hc as [Hl Hd].
    exists r. auto.
  - assert (Hq : forall r, In r (pendingChanges w1) -> id r <> rid).
    { intros r Hin. subst w1.
      rewrite (proj2 (proj2 (proj2 (handleRemoveItem_state reply rid) w))) in Hin.
      apply dropId_In in Hin. apply Hin. }
    split; [exact Hq|].
    intros replies navigatorOnLine listing.
    destruct (part001_sync_calls replies navigatorOnLine listing w1)
      as (k & tail & Hc & Htail).
    eexists; split; [exact Hc|].
    intros data Hin. apply in_app_or in Hin. destruct Hin as [Hin|Hin].
    + apply in_map_iff in Hin. destruct Hin as (r & Hcall & Hr).
      apply callOf_create in Hcall. destruct Hcall as [Hl Hd].
      exists r. apply In_prefix in Hr. auto.
    + destruct Htail as [->| ->]; cbn in Hin; [contradiction|].
      destruct Hin as [Hin|[]]; discriminate.
Qed.

(** The scenario of the specification, run on [part_000]: add offline,
    remove before reconnecting, reconnect. *)
Lemma remove_while_pending_session :
  let parseFloat := fun _ : string => 3.5%float in
  let w0 := exec (Part000.loadItems false None) (Part000.initial false None) in
  let w1 := exec (setNewItem (Part000.mkForm "Milk" 2 "3,50")) w0 in
  let w2 := exec (Part000.handleAddItem parseFloat noon "1700000000000" Rejected) w1 in
  let w3 := exec (Part000.handleRemoveItem Rejected "local-1700000000000") w2 in
  let w4 := exec (Part000.handleOnline (fun _ => Resolved "Zq3RemoteKey000000001")) w3 in
  pendingChanges w2 = items w2 /\
  map id (items w2) = ["local-1700000000000"] /\
  pendingChanges w3 = [] /\
  items w4 = [] /\ pendingChanges w4 = [] /\ remoteCalls w4 = [].
Proof.
  cbv zeta. repeat split.
Qed.

(** *** Invariants of the engine, and the replay of part_001 *)

Lemma part000_loadItems_inSync online stored navigatorOnLine listing :
  inSync (exec (Part000.loadItems navigatorOnLine listing)
               (Part000.initial online stored)).
Proof.
  unfold inSync, localData. run.
  destruct navigatorOnLine; [destruct listing as [[|f fs]|]|];
    destruct stored as [[|x xs]|]; reflexivity.
Qed.

Lemma part000_mutate_inSync parseFloat (m : Mutation) (w : Part000.World) :
  inSync w -> inSync (exec (mutate parseFloat m) w).
Proof.
  unfold inSync, localData. intros Hw.
  destruct m as [clock stamp reply|clock reply itemId
                 |reply rid|clock reply target]; cbn [mutate]; run.
  - destruct ((Part000.new_name (newItem w) =? "")
              || (Part000.new_quantity (newItem w) <=? 0)%float);
      [exact Hw|].
    destruct (isOnline w); [destruct reply|]; reflexivity.
  - destruct (findById itemId (items w)); [|exact Hw]. run.
    destruct (isOnline w && negb (includes "local-" itemId));
      [destruct reply|]; reflexivity.
  - destruct (isOnline w && negb (includes "local-" rid)); reflexivity.
  - destruct (findById target (items w)); [|exact Hw]. run.
    destruct (isOnline w && negb (includes "local-" target));
      [destruct reply|]; reflexivity.
Qed.

Lemma part000_sync_inSync reply (w : Part000.World) :
  inSync w -> inSync (exec (Part000.syncPendingChanges reply) w).
Proof.
  unfold inSync. intros Hw.
  rewrite (localData_storedAfter (renamesOf reply 0 (pendingChanges w)) w)
    by (rewrite sync_spec; reflexivity).
  rewrite Hw, sync_spec. reflexivity.
Qed.

Lemma replaceById_ids target upd (l : list ShoppingItem) :
  id upd = target -> map id (map (replaceById target upd) l) = map id l.
Proof.
  intros Hu. induction l as [|x l IH]; cbn; [reflexivity|].
  rewrite IH. f_equal. unfold replaceById.
  destruct (String.eqb_spec (id x) target); congruence.
Qed.

Lemma NoDup_dropId rid (l : list ShoppingItem) :
  NoDup (map id l) -> NoDup (map id (dropId rid l)).
Proof.
  induction l as [|x l IH]; cbn; intros Hnd; [constructor|].
  inversion Hnd as [|? ? Hx Hnd']; subst.
  destruct (id x =? rid); cbn; [auto|].
  constructor; [|auto].
  intros Hin. apply Hx. apply in_map_iff in Hin.
  destruct Hin as (y & Hy & Hin). apply dropId_In in Hin.
  rewrite <- Hy. apply in_map, Hin.
Qed.

(** X23: update, remove and toggle of [part_000] keep the identifiers of
    the collection unique; an add does when the identifier it is given
    (the local one, or the key of a resolved create) is not in use. *)
Lemma part000_mutate_unique_ids parseFloat (m : Mutation) (w : Part000.World) :
  NoDup (map id (items w)) ->
  match m with
  | Add _ stamp reply =>
      ~ In (localIdOf stamp) (map id (items w)) /\
      (forall docId, reply = Resolved docId -> ~ In docId (map id (items w)))
  | _ => True
  end ->
  NoDup (map id (items (exec (mutate parseFloat m) w))).
Proof.
  intros Hnd Hfresh.
  destruct m as [clock stamp reply|clock reply itemId
                 |reply rid|clock reply target]; cbn [mutate].
  - destruct Hfresh as [Hlocal Hremote]. run.
    destruct ((Part000.new_name (newItem w) =? "")
              || (Part000.new_quantity (newItem w) <=? 0)%float);
      [exact Hnd|].
    assert (Hadd : forall x, ~ In (id x) (map id (items w)) ->
                             NoDup (map id (items w ++ [x]))).
    { intros x Hx. rewrite map_app. cbn.
      apply NoDup_app; [exact Hnd | repeat constructor; tauto |].
      intros y Hy [Hin|[]]. subst y. contradiction. }
    destruct (isOnline w); [destruct reply as [docId|]|]; cbn;
      apply Hadd; cbn; auto.
  - pose proof (handleUpdateItem_effect parseFloat clock reply itemId w) as H.
    cbv zeta in H. destruct (findById itemId (items w)) as [a|] eqn:Hf;
      [destruct H as [Hi _]; rewrite Hi | rewrite H; exact Hnd].
    apply findById_Some in Hf. rewrite replaceById_ids; [exact Hnd | apply Hf].
  - rewrite (proj1 (proj1 (handleRemoveItem_state reply rid) w)).
    apply NoDup_dropId; exact Hnd.
  - pose proof (toggleItemCompletion_effect clock reply target w) as H.
    cbv zeta in H. destruct (findById target (items w)) as [a|] eqn:Hf;
      [destruct H as [Hi _]; rewrite Hi | rewrite H; exact Hnd].
    apply findById_Some in Hf. rewrite replaceById_ids; [exact Hnd | apply Hf].
Qed.

(** The replay of [part_001] with the second of two records rejected: the
    single [try] is left at the rejection, [setPendingChanges([])] is not
    reached and the first record, already created remotely, stays queued. *)
Lemma part001_partial_failure_keeps_both :
  let w := mkWorld [milk; bread] [milk; bread] true (Part001.mkForm "" 1 0)
                   false None (Some [milk; bread]) [] in
  let w' := exec (Part001.syncPendingChanges
                    (firstOnly "Zq3RemoteKey000000001") true None) w in
  pendingChanges w' = [milk; bread] /\
  remoteCalls w' = [AddDoc (withoutId milk); AddDoc (withoutId bread)] /\
  map id (items w') = ["Zq3RemoteKey000000001"; id bread].
Proof.
  cbv zeta. repeat split.
Qed.

(** [updateLocalItemId] of [part_001] rebuilds the snapshot from the
    closure's [items]: after two resolved creations the snapshot has lost
    the first replacement. *)
Lemma part001_snapshot_keeps_first_local_id :
  let w := mkWorld [milk; bread] [milk; bread] true (Part001.mkForm "" 1 0)
                   false None (Some [milk; bread]) [] in
  let w' := exec (Part001.syncPendingChanges
                    (fun k => Resolved (match k with
                                        | 0 => "Zq3RemoteKey000000001"
                                        | _ => "Zq3RemoteKey000000002"
                                        end)) true None) w in
  map id (items w') = ["Zq3RemoteKey000000001"; "Zq3RemoteKey000000002"] /\
  map id (localData w') = [id milk; "Zq3RemoteKey000000002"] /\
  pendingChanges w' = [].
Proof.
  cbv zeta. repeat split.
Qed.

(** *** Unique identifiers under replay *)

Lemma renameId_ids_incl (o n : string) (l : list ShoppingItem) (x : string) :
  In x (map id (map (renameId o n) l)) -> x = n \/ In x (map id l).
Proof.
  induction l as [|a l IH]; cbn; [tauto|].
  unfold renameId at 1. destruct (id a =? o); cbn; intuition.
Qed.

Lemma NoDup_renameId (o n : string) (l : list ShoppingItem) :
  NoDup (map id l) -> ~ In n (map id l) ->
  NoDup (map id (map (renameId o n) l)).
Proof.
  induction l as [|a l IH]; cbn; intros Hnd Hn; [constructor|].
  inversion Hnd as [|? ? Ha Hnd']; subst.
  assert (Hrest : NoDup (map id (map (renameId o n) l))) by (apply IH; tauto).
  unfold renameId at 1.
  destruct (String.eqb_spec (id a) o) as [Heq|Hne]; cbn.
  - constructor; [|exact Hrest].
    rewrite (map_ext_in (renameId o n) (fun x => x)), map_id; [tauto|].
    intros x Hx. unfold renameId.
    destruct (String.eqb_spec (id x) o) as [Hxo|_]; [|reflexivity].
    exfalso. apply Ha. rewrite Heq, <- Hxo. apply in_map; exact Hx.
  - constructor; [|exact Hrest].
    intros Hin. apply renameId_ids_incl in Hin. destruct Hin as [Hin|Hin].
    + apply Hn. left. exact Hin.
    + contradiction.
Qed.

Lemma NoDup_applyRenames (rs : list (string * string)) :
  forall l : list ShoppingItem,
    NoDup (map id l) ->
    NoDup (map snd rs) ->
    (forall p, In p rs -> ~ In (snd p) (map id l)) ->
    NoDup (map id (applyRenames rs l)).
Proof.
  induction rs as [|[o n] rs IH]; intros l Hnd Hkeys Hfresh; cbn;
    [exact Hnd|].
  inversion Hkeys as [|? ? Hn Hkeys']; subst.
  apply IH.
  - apply NoDup_renameId; [exact Hnd | apply (Hfresh (o, n)); left; reflexivity].
  - exact Hkeys'.
  - intros p Hp Hin. apply renameId_ids_incl in Hin. destruct Hin as [Hin|Hin].
    + apply Hn. rewrite <- Hin. apply in_map; exact Hp.
    + apply (Hfresh p); [right; exact Hp | exact Hin].
Qed.

(** X24: the replay of [part_000] keeps the identifiers of the collection
    unique when the keys the store hands out are new and distinct. *)
Lemma part000_sync_unique_ids reply (w : Part000.World) :
  NoDup (map id (items w)) ->
  NoDup (map snd (renamesOf reply 0 (pendingChanges w))) ->
  (forall p, In p (renamesOf reply 0 (pendingChanges w)) ->
             ~ In (snd p) (map id (items w))) ->
  NoDup (map id (items (exec (Part000.syncPendingChanges reply) w))).
Proof.
  intros Hnd Hkeys Hfresh. rewrite sync_spec. cbn [items].
  apply NoDup_applyRenames; assumption.
Qed.

(** *** The derived total in part_001 *)

Lemma part001_handleUpdateItem_items reply updatedItem (w : Part001.World) :
  items (exec (Part001.handleUpdateItem reply updatedItem) w) =
  map (replaceById (id updatedItem) updatedItem) (items w).
Proof.
  run. destruct (isOnline w); [destruct reply|]; reflexivity.
Qed.

Lemma Forall_renameId (o n : string) (l : list ShoppingItem) :
  Forall totalOk l -> Forall totalOk (map (renameId o n) l).
Proof.
  intros H; induction H as [|x l Hx _ IH]; cbn; constructor; [|exact IH].
  unfold renameId. destruct (id x =? o); exact Hx.
Qed.

(** X27: [part_001] keeps [total = quantity * unitPrice] on every item
    through an add, a save of the edit form, a remove and a toggle; its
    update receives the whole item from its two callers, the edit form and
    the toggle. *)
Lemma part001_mutations_keep_total (w : Part001.World) :
  Forall totalOk (items w) ->
  (forall clock uuid stamp reply,
      Forall totalOk
        (items (exec (Part001.handleAddItem clock uuid stamp reply) w))) /\
  (forall clock reply item,
      Forall totalOk (items (exec (Part001.saveEdit clock reply item) w))) /\
  (forall reply rid,
      Forall totalOk (items (exec (Part001.handleRemoveItem reply rid) w))) /\
  (forall clock reply target,
      Forall totalOk
        (items (exec (Part001.toggleItemCompletion clock reply target) w))).
Proof.
  intros Hinv. repeat split.
  - intros clock uuid stamp reply. run.
    destruct (Part001.new_name (newItem w) =? ""); [exact Hinv|].
    assert (Hnew : forall x, totalOk x -> Forall totalOk (items w ++ [x])).
    { intros x Hx. apply Forall_app; split; [exact Hinv | repeat constructor; exact Hx]. }
    destruct (isOnline w); [destruct reply|]; cbn;
      try apply Forall_renameId; apply Hnew; reflexivity.
  - intros clock reply item. unfold Part001.saveEdit, exec, bind, rendered.
    cbv zeta.
    match goal with
    | |- context [Part001.handleUpdateItem reply ?u w] =>
        pose proof (part001_handleUpdateItem_items reply u w) as H
    end.
    unfold exec in H. rewrite H.
    apply Forall_replaceById; [exact Hinv | reflexivity].
  - intros reply rid.
    rewrite (proj1 (proj2 (handleRemoveItem_state reply rid) w)).
    apply Forall_dropId; exact Hinv.
  - intros clock reply target.
    unfold Part001.toggleItemCompletion, exec, bind, rendered. cbv zeta.
    destruct (findById target (items w)) as [a|] eqn:Hf; [|exact Hinv].
    match goal with
    | |- context [Part001.handleUpdateItem reply ?u w] =>
        pose proof (part001_handleUpdateItem_items reply u w) as H
    end.
    unfold exec in H. rewrite H.
    apply Forall_replaceById; [exact Hinv|].
    apply findById_Some in Hf. destruct Hf as [Hin _].
    rewrite Forall_forall in Hinv. exact (Hinv a Hin).
Qed.

(** *** Texts: identifiers and prices *)

Lemma prefix_append (s t : string) : String.prefix s (s ++ t)%string = true.
Proof.
  induction s as [|a s IH]; cbn; [destruct t; reflexivity|].
  destruct (Ascii.ascii_dec a a) as [_|Hne]; [exact IH | contradiction].
Qed.

Lemma prefix_split (s1 s2 : string) :
  String.prefix s1 s2 = true -> exists t, s2 = (s1 ++ t)%string.
Proof.
  revert s1; induction s2 as [|b s2 IH]; intros [|a s1] H; cbn in *.
  - exists ""; reflexivity.
  - discriminate.
  - exists (String b s2); reflexivity.
  - destruct (Ascii.ascii_dec a b) as [->|_]; [|discriminate].
    destruct (IH _ H) as [t ->]. exists t; reflexivity.
Qed.

Lemma includes_here (sub s : string) :
  String.prefix sub s = true -> includes sub s = true.
Proof.
  intros H. destruct s; cbn [includes]; rewrite H; reflexivity.
Qed.

Lemma includes_later (sub : string) (c : ascii) (s : string) :
  includes sub s = true -> includes sub (String c s) = true.
Proof.
  intros H. cbn [includes]. rewrite H. destruct (String.prefix sub (String c s)); reflexivity.
Qed.

(** X1: the guard [id.includes('local-')] holds exactly for the texts that
    contain ["local-"] somewhere: every identifier the offline path builds
    as [`local-${Date.now()}`] passes it, and so does any text with
    ["local-"] in the middle. *)
Theorem includes_substring :
  forall sub s : string,
    (includes sub s = true <-> exists pre post, s = (pre ++ sub ++ post)%string) /\
    (forall stamp, isLocalId (localIdOf stamp) = true) /\
    (forall pre post, isLocalId (pre ++ "local-" ++ post)%string = true).
Proof.
  intros sub s.
  assert (Hback : forall sub' pre post,
             includes sub' (pre ++ sub' ++ post)%string = true).
  { intros sub' pre post. induction pre as [|c pre IH]; cbn [append].
    - apply includes_here. apply prefix_append.
    - apply includes_later. exact IH. }
  split; [split|split].
  - induction s as [|c s IH]; cbn [includes].
    + destruct (String.prefix sub "") eqn:Hp; [|discriminate].
      intros _. apply prefix_split in Hp. destruct Hp as [t Ht].
      exists "", t. exact Ht.
    + destruct (String.prefix sub (String c s)) eqn:Hp.
      * intros _. apply prefix_split in Hp. destruct Hp as [t Ht].
        exists "", t. exact Ht.
      * intros H. destruct (IH H) as (pre & post & ->).
        exists (String c pre), post. reflexivity.
  - intros (pre & post & ->). apply Hback.
  - intros stamp. apply (Hback "local-" "" stamp).
  - intros pre post. apply (Hback "local-" pre post).
Qed.

Lemma orZero_not_nan (x : float) : is_nan (Part000.orZero x) = false.
Proof.
  unfold Part000.orZero. destruct (is_nan x) eqn:Hn; cbn [orb];
    [reflexivity|].
  destruct (is_zero x); [reflexivity | exact Hn].
Qed.

Lemma keep_allChars (s : string) :
  allChars (fun c => Part000.isDigit c || Ascii.eqb c ","%char)
           (Part000.keepDigitsAndCommas s) = true.
Proof.
  induction s as [|c s IH]; cbn; [reflexivity|].
  destruct (Part000.isDigit c || Ascii.eqb c ","%char) eqn:Hc; [|exact IH].
  cbn. rewrite Hc. exact IH.
Qed.

Lemma keep_fixed (s : string) :
  allChars (fun c => Part000.isDigit c || Ascii.eqb c ","%char) s = true ->
  Part000.keepDigitsAndCommas s = s.
Proof.
  induction s as [|c s IH]; cbn; [reflexivity|].
  intros H. apply andb_true_iff in H. destruct H as [Hc Hs].
  rewrite Hc, (IH Hs). reflexivity.
Qed.

Lemma isDigit_not_comma (c : ascii) :
  Part000.isDigit c = true -> Ascii.eqb c ","%char = false /\ Ascii.eqb c "."%char = false.
Proof.
  unfold Part000.isDigit. intros H. apply andb_true_iff in H.
  destruct H as [Hlo _]. apply Nat.leb_le in Hlo.
  split; apply Ascii.eqb_neq; intros ->; cbn in Hlo; lia.
Qed.

(** X2: [parseCurrency] never returns [NaN], whatever [parseFloat]
    answers; it returns [0] on the empty text; [parseFloat] is only ever
    handed digits and dots; and a text without a digit or a comma gives
    [0] when [parseFloat] of the empty text is [NaN]. *)
Theorem parseCurrency_total :
  forall (parseFloat : string -> float) (value : string),
    is_nan (Part000.parseCurrency parseFloat value) = false /\
    Part000.parseCurrency parseFloat "" = 0%float /\
    allChars (fun c => Part000.isDigit c || Ascii.eqb c "."%char)
             (Part000.commasToDots (Part000.keepDigitsAndCommas value)) = true /\
    (Part000.keepDigitsAndCommas value = "" ->
     is_nan (parseFloat "") = true ->
     Part000.parseCurrency parseFloat value = 0%float).
Proof.
  intros parseFloat value. repeat split.
  - unfold Part000.parseCurrency. destruct (value =? ""); [reflexivity|].
    apply orZero_not_nan.
  - induction value as [|c s IH]; cbn [Part000.keepDigitsAndCommas];
      [reflexivity|].
    destruct (Part000.isDigit c) eqn:Hd; cbn [orb].
    + destruct (isDigit_not_comma c Hd) as [Hc _].
      cbn [Part000.commasToDots allChars]. rewrite Hc, Hd. exact IH.
    + destruct (Ascii.eqb c ","%char) eqn:Hc; [|exact IH].
      cbn [Part000.commasToDots allChars]. rewrite Hc. exact IH.
  - intros Hclean Hnan. unfold Part000.parseCurrency.
    destruct (value =? ""); [reflexivity|].
    rewrite Hclean. cbn. unfold Part000.orZero. rewrite Hnan. reflexivity.
Qed.

Lemma parseCurrency_total_witness :
  Part000.parseCurrency (fun s => if s =? "" then nan else 1.5%float) "R$ abc"
  = 0%float.
Proof.
  apply (proj2 (proj2 (proj2
           (parseCurrency_total (fun s => if s =? "" then nan else 1.5%float)
                                "R$ abc")))); reflexivity.
Defined.

Lemma digits_fixed (s : string) :
  allChars (fun c => Part000.isDigit c || Ascii.eqb c "."%char) s = true ->
  countChar "."%char s = 0 ->
  Part000.commasToDots (Part000.keepDigitsAndCommas s) = s.
Proof.
  induction s as [|c s IH]; cbn [allChars countChar]; [reflexivity|].
  intros Hall Hdots. apply andb_true_iff in Hall. destruct Hall as [Hc Hs].
  destruct (Ascii.eqb c "."%char) eqn:Hdot; [cbn in Hdots; discriminate|].
  rewrite orb_false_r in Hc. destruct (isDigit_not_comma c Hc) as [Hcomma _].
  cbn [Part000.keepDigitsAndCommas]. rewrite Hc. cbn [orb Part000.commasToDots].
  rewrite Hcomma, (IH Hs Hdots). reflexivity.
Qed.

Lemma format_parse_text (s : string) :
  decimalText s = true ->
  Part000.commasToDots (Part000.keepDigitsAndCommas (Part000.replaceFirstDot s))
  = s.
Proof.
  unfold decimalText. intros H. apply andb_true_iff in H.
  destruct H as [Hall Hcount]. apply Nat.leb_le in Hcount.
  induction s as [|c s IH]; [reflexivity|].
  cbn [allChars countChar] in Hall, Hcount.
  apply andb_true_iff in Hall. destruct Hall as [Hc Hs].
  cbn [Part000.replaceFirstDot].
  destruct (Ascii.eqb c "."%char) eqn:Hdot.
  - apply Ascii.eqb_eq in Hdot. subst c.
    cbn [Part000.keepDigitsAndCommas]. cbn [Part000.isDigit].
    change (Part000.isDigit ","%char || Ascii.eqb ","%char ","%char) with true.
    cbn [Part000.commasToDots].
    change (Ascii.eqb ","%char ","%char) with true. cbn iota.
    f_equal. apply digits_fixed; [exact Hs | lia].
  - rewrite orb_false_r in Hc. destruct (isDigit_not_comma c Hc) as [Hcomma _].
    cbn [Part000.keepDigitsAndCommas]. rewrite Hc. cbn [orb Part000.commasToDots].
    rewrite Hcomma. f_equal. apply IH; [exact Hs | cbn in Hcount; lia].
Qed.

Lemma replaceFirstDot_empty (s : string) :
  Part000.replaceFirstDot s = "" -> s = "".
Proof.
  destruct s as [|c s]; [reflexivity|]. cbn.
  destruct (Ascii.eqb c "."%char); discriminate.
Qed.

(** X3: what [formatCurrency] writes is read back by [parseCurrency] as
    the text [toFixed(2)] produced: when that text is not empty and holds
    digits with at most one decimal point, cleaning the formatted text
    gives it back, so the edit form's price parses to
    [parseFloat (toFixed2 value) || 0]. *)
Theorem formatCurrency_parseCurrency :
  forall (parseFloat : string -> float) (toFixed2 : float -> string)
         (value : float),
    decimalText (toFixed2 value) = true ->
    toFixed2 value <> "" ->
    Part000.commasToDots
      (Part000.keepDigitsAndCommas (Part000.formatCurrency toFixed2 value))
    = toFixed2 value /\
    Part000.parseCurrency parseFloat (Part000.formatCurrency toFixed2 value)
    = Part000.orZero (parseFloat (toFixed2 value)).
Proof.
  intros parseFloat toFixed2 value Htext Hne.
  unfold Part000.formatCurrency.
  assert (Hclean := format_parse_text (toFixed2 value) Htext).
  split; [exact Hclean|].
  unfold Part000.parseCurrency.
  destruct (String.eqb_spec (Part000.replaceFirstDot (toFixed2 value)) "")
    as [Hempty|_].
  - apply replaceFirstDot_empty in Hempty. contradiction.
  - rewrite Hclean. reflexivity.
Qed.

Lemma formatCurrency_parseCurrency_witness :
  Part000.parseCurrency (fun _ => 3.5%float)
                        (Part000.formatCurrency (fun _ => "3.50") 3.5%float)
  = 3.5%float.
Proof.
  apply (proj2 (formatCurrency_parseCurrency
                  (fun _ => 3.5%float) (fun _ => "3.50") 3.5%float
                  eq_refl ltac:(discriminate))).
Defined.

Lemma dropPairedCommas_count (s : string) :
  countChar ","%char (Part000.dropPairedCommas false s)
  = Nat.div2 (S (countChar ","%char s)) /\
  countChar ","%char (Part000.dropPairedCommas true s)
  = Nat.div2 (countChar ","%char s).
Proof.
  induction s as [|c s [IHf IHt]]; [split; reflexivity|].
  cbn [Part000.dropPairedCommas countChar].
  destruct (Ascii.eqb c ","%char) eqn:Hc.
  - cbn [countChar]. rewrite Hc, IHf, IHt. split; reflexivity.
  - cbn [countChar]. rewrite Hc, IHf, IHt. split; reflexivity.
Qed.

Lemma dropPairedCommas_allChars (p : ascii -> bool) (s : string) :
  allChars p s = true ->
  forall paired, allChars p (Part000.dropPairedCommas paired s) = true.
Proof.
  induction s as [|c s IH]; intros Hall paired; [reflexivity|].
  cbn [allChars] in Hall. apply andb_true_iff in Hall. destruct Hall as [Hc Hs].
  cbn [Part000.dropPairedCommas].
  destruct (Ascii.eqb c ","%char); [destruct paired|]; cbn [allChars];
    rewrite ?Hc; cbn [andb]; apply IH; exact Hs.
Qed.

Lemma keep_count (s : string) :
  countChar ","%char (Part000.keepDigitsAndCommas s) = countChar ","%char s.
Proof.
  induction s as [|c s IH]; [reflexivity|].
  cbn [Part000.keepDigitsAndCommas countChar].
  destruct (Ascii.eqb c ","%char) eqn:Hc.
  - rewrite orb_true_r. cbn [countChar]. rewrite Hc, IH. reflexivity.
  - rewrite orb_false_r. destruct (Part000.isDigit c); cbn [countChar];
      rewrite ?Hc, IH; reflexivity.
Qed.

(** X4: the text the price field's [onChange] stores holds only digits
    and commas, never starts with a comma, and keeps every other comma of
    the typed text (the first, the third, ...): with [n] commas typed,
    [(n + 1) / 2] stay.  So typing into a field with at most one comma
    never leaves a second one, while a pasted text with three or more
    commas keeps more than one. *)
Theorem sanitizePrice_commas :
  forall typed : string,
    allChars (fun c => Part000.isDigit c || Ascii.eqb c ","%char)
             (Part000.sanitizePrice typed) = true /\
    String.prefix "," (Part000.sanitizePrice typed) = false /\
    countChar ","%char (Part000.sanitizePrice typed)
    = Nat.div2 (S (countChar ","%char typed)) /\
    ((countChar ","%char typed <= 2)%nat ->
     (countChar ","%char (Part000.sanitizePrice typed) <= 1)%nat).
Proof.
  intros typed.
  assert (Hcount : countChar ","%char (Part000.sanitizePrice typed)
                   = Nat.div2 (S (countChar ","%char typed))).
  { unfold Part000.sanitizePrice. cbv zeta.
    destruct (String.prefix "," _); cbn [append countChar];
      rewrite (proj1 (dropPairedCommas_count _)), keep_count; reflexivity. }
  repeat split.
  - unfold Part000.sanitizePrice. cbv zeta.
    pose proof (dropPairedCommas_allChars _ _ (keep_allChars typed) false) as H.
    destruct (String.prefix "," _); [|exact H].
    cbn [append allChars]. rewrite H. reflexivity.
  - unfold Part000.sanitizePrice. cbv zeta.
    set (v := Part000.dropPairedCommas false (Part000.keepDigitsAndCommas typed)).
    destruct (String.prefix "," v) eqn:Hp; [reflexivity | exact Hp].
  - exact Hcount.
  - intros Hle. rewrite Hcount.
    destruct (countChar ","%char typed) as [|[|[|n]]]; cbn; lia.
Qed.

Lemma sanitizePrice_commas_witness :
  (countChar ","%char (Part000.sanitizePrice "1,5,") <= 1)%nat.
Proof.
  apply (proj2 (proj2 (proj2 (sanitizePrice_commas "1,5,")))).
  cbn. lia.
Defined.

(** *** Startup, and the snapshot through a session *)

Lemma ofDoc_id (docs : list (string * ItemData)) :
  map id (map ofDoc docs) = map fst docs.
Proof.
  induction docs as [|[k d] docs IH]; cbn; [reflexivity|].
  rewrite IH. reflexivity.
Qed.

(** X5: when [loadItems] runs online and the listing resolves with at
    least one document, the collection and the snapshot both become the
    fetched documents, each carrying its document key as [id]; the queue is
    untouched.  Both revisions. *)
Theorem loadItems_remote_wins :
  forall docs : list (string * ItemData),
    docs <> [] ->
    (forall w : Part000.World,
        let w' := exec (Part000.loadItems true (Some docs)) w in
        items w' = map ofDoc docs /\
        localStorage w' = Some (map ofDoc docs) /\
        map id (items w') = map fst docs /\
        pendingChanges w' = pendingChanges w) /\
    (forall w : Part001.World,
        let w' := exec (Part001.loadItems true (Some docs)) w in
        items w' = map ofDoc docs /\
        localStorage w' = Some (map ofDoc docs) /\
        map id (items w') = map fst docs /\
        pendingChanges w' = pendingChanges w).
Proof.
  intros docs Hne.
  assert (Hlen : (0 <? List.length (map ofDoc docs))%nat = true).
  { destruct docs; [congruence | reflexivity]. }
  split; intros w; run; rewrite Hlen; cbn [fst snd items localStorage
                                            pendingChanges];
    repeat split; apply ofDoc_id.
Qed.

Lemma loadItems_remote_wins_witness :
  items (exec (Part000.loadItems true (Some [("Zq3RemoteKey000000001", withoutId milk)]))
              (Part000.initial true (Some [bread; eggs])))
  = [withId milk "Zq3RemoteKey000000001"].
Proof.
  apply (proj1 (loadItems_remote_wins
                  [("Zq3RemoteKey000000001", withoutId milk)]
                  ltac:(discriminate))).
Defined.

(** X6: when [loadItems] of [part_000] runs offline, or the listing is
    rejected or empty, the collection becomes the snapshot's list if that
    is not empty and stays as it is otherwise; the snapshot and the queue
    are not written, and the store is called only when online. *)
Theorem part000_loadItems_falls_back :
  forall (navigatorOnLine : bool) (listing : option (list (string * ItemData)))
         (w : Part000.World),
    navigatorOnLine = false \/ listing = None \/ listing = Some [] ->
    let w' := exec (Part000.loadItems navigatorOnLine listing) w in
    items w' = match localData w with
               | [] => items w
               | _ :: _ => localData w
               end /\
    localStorage w' = localStorage w /\
    pendingChanges w' = pendingChanges w /\
    remoteCalls w' = remoteCalls w ++ (if navigatorOnLine then [GetDocs] else []).
Proof.
  intros navigatorOnLine listing w H w'; subst w'. unfold localData. run.
  destruct navigatorOnLine.
  - destruct H as [H|[->| ->]]; [discriminate| |];
      destruct (localStorage w) as [[|x xs]|] eqn:Hs; cbn; rewrite ?Hs;
      repeat split.
  - destruct (localStorage w) as [[|x xs]|] eqn:Hs; cbn;
      rewrite ?app_nil_r, ?Hs; repeat split.
Qed.

Lemma part000_loadItems_falls_back_witness :
  items (exec (Part000.loadItems true None)
              (Part000.initial true (Some [milk; bread])))
  = [milk; bread].
Proof.
  apply (part000_loadItems_falls_back true None
           (Part000.initial true (Some [milk; bread]))).
  right; left; reflexivity.
Defined.

(** X7: in [part_001] a rejected listing at startup leaves the
    collection empty although the snapshot holds items ([loadItems] only
    logs the error).  The next accepted add then rewrites the snapshot
    from that empty collection: whatever the snapshot held, it holds at
    most one item afterwards. *)
Theorem part001_rejected_listing_loses_snapshot :
  forall (stored : option (list ShoppingItem)) (form : Part001.NewItemState)
         (clock : nat -> string) (uuid stamp : string) (reply : Reply),
    Part001.new_name form <> "" ->
    let w0 := exec (Part001.loadItems true None) (Part001.initial true stored) in
    let w1 := exec (setNewItem form) w0 in
    let w2 := exec (Part001.handleAddItem clock uuid stamp reply) w1 in
    items w0 = [] /\
    localStorage w0 = stored /\
    (List.length (localData w2) <= 1)%nat /\
    List.length (items w2) = 1.
Proof.
  intros stored form clock uuid stamp reply Hname w0 w1 w2.
  subst w0 w1 w2. run. cbn [Part001.initial items localStorage isOnline
                            pendingChanges newItem remoteCalls].
  apply String.eqb_neq in Hname. rewrite Hname.
  destruct reply; cbn; auto.
Qed.

Lemma part001_rejected_listing_loses_snapshot_witness :
  (List.length
     (localData
        (exec (Part001.handleAddItem noon "2f1c" "1700000000000" Rejected)
              (exec (setNewItem (Part001.mkForm "Milk" 2 3.5))
                    (exec (Part001.loadItems true None)
                          (Part001.initial true (Some [bread; eggs])))))) <= 1)%nat.
Proof.
  apply (part001_rejected_listing_loses_snapshot
           (Some [bread; eggs]) (Part001.mkForm "Milk" 2 3.5)
           noon "2f1c" "1700000000000" Rejected).
  discriminate.
Defined.

Lemma part000_online_inSync reply (w : Part000.World) :
  inSync w -> inSync (exec (Part000.handleOnline reply) w).
Proof.
  intros Hw. unfold Part000.handleOnline, exec, bind, rendered.
  destruct (isOnline w); [exact Hw|].
  cbn [Part000.setIsOnline fst snd isOnline pendingChanges].
  destruct (0 <? List.length (pendingChanges w))%nat; cbn [andb].
  - apply (part000_sync_inSync reply). exact Hw.
  - exact Hw.
Qed.

Lemma handle_inSync parseFloat toFixed2 (e : Event) (w : Part000.World) :
  inSync w -> inSync (exec (handle parseFloat toFixed2 e) w).
Proof.
  intros Hw. destruct e; cbn [handle].
  - apply part000_mutate_inSync; exact Hw.
  - apply part000_online_inSync; exact Hw.
  - exact Hw.
  - exact Hw.
  - exact Hw.
  - exact Hw.
  - exact Hw.
Qed.

(** *** Replay: calls, rejection, repetition *)

(** X9: a replay of [part_000] issues exactly one remote call per queued
    record, in queue order and whatever the replies: [addDoc] with the
    record's data for a local-space identifier, [updateDoc] on the
    identifier otherwise.  A rejection does not stop the later records,
    and the replay leaves [isOnline] and the form alone. *)
Theorem part000_replay_calls_every_record :
  forall (reply : nat -> Reply) (w : Part000.World),
    let w' := exec (Part000.syncPendingChanges reply) w in
    remoteCalls w' = remoteCalls w ++ map callOf (pendingChanges w) /\
    List.length (remoteCalls w')
    = List.length (remoteCalls w) + List.length (pendingChanges w) /\
    (forall r, In r (pendingChanges w) ->
               isLocalId (id r) = true -> In (AddDoc (withoutId r)) (remoteCalls w')) /\
    (forall r, In r (pendingChanges w) ->
               isLocalId (id r) = false ->
               In (UpdateDoc (id r) (withoutId r)) (remoteCalls w')) /\
    isOnline w' = isOnline w /\ newItem w' = newItem w /\
    isAddingItem w' = isAddingItem w /\ isEditingItem w' = isEditingItem w.
Proof.
  intros reply w w'; subst w'. rewrite sync_spec. cbv zeta.
  cbn [remoteCalls isOnline newItem isAddingItem isEditingItem].
  split; [reflexivity|]. split; [rewrite length_app, length_map; reflexivity|].
  repeat split.
  - intros r Hin Hl. apply in_or_app. right.
    apply in_map_iff. exists r. split; [|exact Hin].
    unfold callOf. rewrite Hl. reflexivity.
  - intros r Hin Hl. apply in_or_app. right.
    apply in_map_iff. exists r. split; [|exact Hin].
    unfold callOf. rewrite Hl. reflexivity.
Qed.

Lemma part000_replay_calls_every_record_witness :
  In (AddDoc (withoutId bread))
     (remoteCalls
        (exec (Part000.syncPendingChanges (fun _ => Rejected))
              (mkWorld [milk; bread] [milk; bread] true (Part000.mkForm "" 1 "")
                       false None (Some [milk; bread]) []))).
Proof.
  apply (proj1 (proj2 (proj2
           (part000_replay_calls_every_record (fun _ => Rejected)
              (mkWorld [milk; bread] [milk; bread] true (Part000.mkForm "" 1 "")
                       false None (Some [milk; bread]) []))))).
  - cbn; auto.
  - reflexivity.
Defined.

Lemma part001_loadItems_pending navigatorOnLine listing (w : Part001.World) :
  pendingChanges (exec (Part001.loadItems navigatorOnLine listing) w)
  = pendingChanges w.
Proof.
  run. destruct navigatorOnLine; [destruct listing as [[|f fs]|]|];
    destruct (localStorage w) as [[|x xs]|]; reflexivity.
Qed.

Lemma part001_syncLoop_exact closureItems reply (queue : list ShoppingItem) :
  forall i (w : Part001.World),
    fst (Part001.syncLoop closureItems reply i queue w)
    = allResolved reply i queue /\
    remoteCalls (snd (Part001.syncLoop closureItems reply i queue w))
    = remoteCalls w ++ map callOf (firstn (attempted reply i queue) queue) /\
    pendingChanges (snd (Part001.syncLoop closureItems reply i queue w))
    = pendingChanges w.
Proof.
  induction queue as [|item rest IH]; intros i w.
  - cbn. rewrite app_nil_r. auto.
  - cbn [Part001.syncLoop allResolved attempted].
    change (includes "local-" (id item)) with (isLocalId (id item)).
    assert (Hcall : callOf item =
                    if isLocalId (id item) then AddDoc (withoutId item)
                    else UpdateDoc (id item) (withoutId item))
      by reflexivity.
    destruct (isLocalId (id item)); cbn [negb];
      destruct (reply i) as [docRef|]; cbn [isRejected negb andb]; run;
      try solve [cbn [firstn map]; rewrite Hcall; auto].
    all: match goal with
         | |- context [Part001.syncLoop _ _ _ _ ?w1] =>
             destruct (IH (S i) w1) as (Hf & Hk & Hp)
         end;
      rewrite Hf, Hk, Hp;
      cbn [firstn map remoteCalls pendingChanges];
      rewrite Hcall, <- app_assoc; auto.
Qed.

(** X10: a replay of [part_001] stops at the first rejected call: it
    issues the calls of the records up to and including that one and
    leaves the whole queue as it was.  Only when every call resolves is
    the queue emptied, and [loadItems] then lists the store if the device
    is online. *)
Theorem part001_replay_stops_at_rejection :
  forall (reply : nat -> Reply) (navigatorOnLine : bool)
         (listing : option (list (string * ItemData))) (w : Part001.World),
    let w' := exec (Part001.syncPendingChanges reply navigatorOnLine listing) w in
    let queue := pendingChanges w in
    pendingChanges w' = (if allResolved reply 0 queue then [] else queue) /\
    remoteCalls w'
    = remoteCalls w
      ++ map callOf (firstn (attempted reply 0 queue) queue)
      ++ (if allResolved reply 0 queue && navigatorOnLine then [GetDocs] else []).
Proof.
  intros reply navigatorOnLine listing w w' queue; subst w' queue.
  unfold Part001.syncPendingChanges, exec, bind, rendered. cbv zeta.
  destruct (part001_syncLoop_exact (items w) reply (pendingChanges w) 0 w)
    as (Hf & Hk & Hp).
  destruct (Part001.syncLoop (items w) reply 0 (pendingChanges w) w)
    as [finished w1] eqn:Hloop.
  cbn [fst snd] in Hf, Hk, Hp. rewrite <- Hf.
  destruct finished.
  - unfold setPendingChanges.
    match goal with
    | |- context [Part001.loadItems _ _ ?w2] =>
        pose proof (part001_loadItems_calls navigatorOnLine listing w2) as Hl;
        pose proof (part001_loadItems_pending navigatorOnLine listing w2) as Hq
    end.
    unfold exec in Hl, Hq. cbn [remoteCalls pendingChanges] in Hl, Hq.
    rewrite Hl, Hq, Hk, <- app_assoc. cbn [andb]. auto.
  - unfold ret; cbn [snd andb]. rewrite Hk, Hp, app_nil_r. auto.
Qed.

Lemma failedRecords_allResolved reply (queue : list ShoppingItem) :
  forall i, allResolved reply i queue = true -> failedRecords reply i queue = [].
Proof.
  induction queue as [|r rest IH]; intros i H; cbn in *; [reflexivity|].
  apply andb_true_iff in H. destruct H as [Hr Hrest].
  destruct (isRejected (reply i)); [discriminate | apply IH; exact Hrest].
Qed.

(** X11: when every call of a replay of [part_000] resolves, the queue
    is empty afterwards; replaying again changes nothing and calls
    nothing, and going offline and online again only sets [isOnline]. *)
Theorem part000_replay_idempotent :
  forall (reply reply' : nat -> Reply) (w : Part000.World),
    allResolved reply 0 (pendingChanges w) = true ->
    let w1 := exec (Part000.syncPendingChanges reply) w in
    pendingChanges w1 = [] /\
    exec (Part000.syncPendingChanges reply') w1 = w1 /\
    exec (Part000.handleOnline reply')
         (exec Part000.handleOffline w1)
    = exec (Part000.setIsOnline true) w1.
Proof.
  intros reply reply' w Hall w1.
  assert (Hq : pendingChanges w1 = []).
  { subst w1. rewrite sync_spec. cbn [pendingChanges].
    apply failedRecords_allResolved; exact Hall. }
  split; [exact Hq|]. split.
  - unfold Part000.syncPendingChanges, exec, bind, rendered. cbv zeta.
    rewrite Hq. reflexivity.
  - unfold Part000.handleOnline, Part000.handleOffline, exec, bind, rendered.
    cbn [Part000.setIsOnline fst snd isOnline pendingChanges].
    rewrite Hq. reflexivity.
Qed.

Lemma part000_replay_idempotent_witness :
  let w := mkWorld [milk; bread] [milk; bread] true (Part000.mkForm "" 1 "")
                   false None (Some [milk; bread]) [] in
  let w1 := exec (Part000.syncPendingChanges twoKeys) w in
  exec (Part000.syncPendingChanges (fun _ => Rejected)) w1 = w1.
Proof.
  cbv zeta.
  apply (proj1 (proj2 (part000_replay_idempotent
                         twoKeys
                         (fun _ => Rejected)
                         (mkWorld [milk; bread] [milk; bread] true
                                  (Part000.mkForm "" 1 "") false None
                                  (Some [milk; bread]) [])
                         eq_refl))).
Defined.

(** *** Adding offline, then reconnecting *)

Lemma renameId_absent (o n : string) (l : list ShoppingItem) :
  ~ In o (map id l) -> map (renameId o n) l = l.
Proof.
  induction l as [|x l IH]; cbn; intros Hnot; [reflexivity|].
  unfold renameId at 1.
  destruct (String.eqb_spec (id x) o) as [Heq|Hne].
  - exfalso; apply Hnot; left; exact Heq.
  - f_equal; apply IH; intros Hin; apply Hnot; right; exact Hin.
Qed.

Lemma acceptable_guard (form : Part000.NewItemState) :
  acceptable form ->
  (Part000.new_name form =? "") || (Part000.new_quantity form <=? 0)%float
  = false.
Proof.
  intros [Hn Hq]. apply String.eqb_neq in Hn. rewrite Hn, Hq. reflexivity.
Qed.

Lemma handleAddItem_offline parseFloat clock stamp reply (w : Part000.World) :
  isOnline w = false ->
  acceptable (newItem w) ->
  exec (Part000.handleAddItem parseFloat clock stamp reply) w
  = let added := madeFrom parseFloat (newItem w) (localIdOf stamp)
                          (clock 0) (clock 1) in
    mkWorld (items w ++ [added]) (pendingChanges w ++ [added]) false
            (Part000.mkForm "" 1 "") false (isEditingItem w)
            (Some (items w ++ [added])) (remoteCalls w).
Proof.
  intros Hoff Hform. run. rewrite (acceptable_guard _ Hform), Hoff.
  cbn. rewrite ?Hoff. reflexivity.
Qed.

Lemma handleOnline_from_offline reply (w : Part000.World) :
  isOnline w = false ->
  exec (Part000.handleOnline reply) w
  = match pendingChanges w with
    | [] => exec (Part000.setIsOnline true) w
    | _ :: _ => exec (Part000.syncPendingChanges reply)
                     (exec (Part000.setIsOnline true) w)
    end.
Proof.
  intros Hoff. unfold Part000.handleOnline, exec, bind, rendered.
  rewrite Hoff. cbn [Part000.setIsOnline fst snd isOnline pendingChanges andb].
  destruct (pendingChanges w); reflexivity.
Qed.

(** X12: an item added offline in [part_000] (accepted form, empty
    queue, a [Date.now()] stamp not in use) is appended under its local
    identifier, written to the snapshot and queued, with no remote call.
    When the device comes back online and the create resolves to [key],
    the item carries [key] in the collection and in the snapshot, the
    queue is empty and the only call made is the [addDoc] of the item's
    data. *)
Theorem part000_offline_add_then_reconnect :
  forall parseFloat clock stamp anyReply (reply : nat -> Reply) (key : string)
         (w : Part000.World),
    isOnline w = false ->
    pendingChanges w = [] ->
    acceptable (newItem w) ->
    ~ In (localIdOf stamp) (map id (items w)) ->
    reply 0 = Resolved key ->
    let added := madeFrom parseFloat (newItem w) (localIdOf stamp)
                          (clock 0) (clock 1) in
    let w1 := exec (Part000.handleAddItem parseFloat clock stamp anyReply) w in
    let w2 := exec (Part000.handleOnline reply) w1 in
    (items w1 = items w ++ [added] /\
     localStorage w1 = Some (items w1) /\
     pendingChanges w1 = [added] /\
     remoteCalls w1 = remoteCalls w) /\
    (items w2 = items w ++ [withId added key] /\
     localStorage w2 = Some (items w2) /\
     pendingChanges w2 = [] /\
     remoteCalls w2 = remoteCalls w ++ [AddDoc (withoutId added)] /\
     isOnline w2 = true).
Proof.
  intros parseFloat clock stamp anyReply reply key w Hoff Hq Hform Hfresh Hr
         added w1 w2.
  assert (H1 : w1 = mkWorld (items w ++ [added]) [added] false
                            (Part000.mkForm "" 1 "") false (isEditingItem w)
                            (Some (items w ++ [added])) (remoteCalls w)).
  { subst w1. rewrite handleAddItem_offline by assumption.
    cbv zeta. rewrite Hq. reflexivity. }
  split; [rewrite H1; repeat split|].
  assert (Hlocal : isLocalId (id added) = true).
  { unfold isLocalId. change (id added) with ("local-" ++ stamp)%string.
    apply includes_here, prefix_append. }
  assert (Hmap : map (renameId (id added) key) (items w ++ [added])
                 = items w ++ [withId added key]).
  { rewrite map_app, renameId_absent by exact Hfresh. cbn [map].
    unfold renameId. rewrite String.eqb_refl. reflexivity. }
  assert (H2 : w2 = mkWorld (items w ++ [withId added key]) [] true
                            (Part000.mkForm "" 1 "") false (isEditingItem w)
                            (Some (items w ++ [withId added key]))
                            (remoteCalls w ++ [AddDoc (withoutId added)])).
  { subst w2. rewrite H1, handleOnline_from_offline by reflexivity.
    cbn [pendingChanges]. rewrite sync_spec. cbv zeta.
    cbn [exec Part000.setIsOnline snd items pendingChanges isOnline newItem
         isAddingItem isEditingItem localStorage remoteCalls
         renamesOf failedRecords map].
    rewrite Hr, Hlocal.
    cbn [isRejected applyRenames fold_left fst snd storedAfter].
    unfold callOf. rewrite Hlocal, Hmap. reflexivity. }
  rewrite H2. repeat split.
Qed.

Lemma part000_offline_add_then_reconnect_witness :
  let w := mkWorld [] [] false (Part000.mkForm "Milk" 2 "3,50") true None
                   None [] in
  let w2 := exec (Part000.handleOnline (fun _ => Resolved "Zq3RemoteKey000000001"))
                 (exec (Part000.handleAddItem (fun _ => 3.5%float) noon
                                              "1700000000000" Rejected) w) in
  map id (items w2) = ["Zq3RemoteKey000000001"] /\
  localStorage w2 = Some (items w2) /\
  pendingChanges w2 = [].
Proof.
  cbv zeta.
  destruct (part000_offline_add_then_reconnect
              (fun _ => 3.5%float) noon "1700000000000" Rejected
              (fun _ => Resolved "Zq3RemoteKey000000001")
              "Zq3RemoteKey000000001"
              (mkWorld [] [] false (Part000.mkForm "Milk" 2 "3,50") true None
                       None [])
              eq_refl eq_refl)
    as (_ & Hi & Hs & Hp & _).
  - split; [discriminate | reflexivity].
  - cbn; tauto.
  - reflexivity.
  - rewrite Hi. auto.
Defined.

(** *** Update, toggle and remove, call by call *)

Lemma findById_absent (target : string) (l : list ShoppingItem) :
  ~ In target (map id l) -> findById target l = None.
Proof.
  induction l as [|x l IH]; cbn; intros Hnot; [reflexivity|].
  destruct (String.eqb_spec (id x) target) as [Heq|Hne].
  - exfalso; apply Hnot; left; exact Heq.
  - apply IH; intros Hin; apply Hnot; right; exact Hin.
Qed.

(** The whole effect of an update and of a toggle of [part_000] on an item
    that [find] returns. *)
Lemma handleUpdateItem_found parseFloat clock reply itemId
      (w : Part000.World) (a : ShoppingItem) :
  findById itemId (items w) = Some a ->
  let written := editedFrom parseFloat (newItem w) (clock 0) a in
  let remote := isOnline w && negb (isLocalId itemId) in
  exec (Part000.handleUpdateItem parseFloat clock reply itemId) w
  = mkWorld (map (replaceById itemId written) (items w))
            (if remote && negb (isRejected reply) then pendingChanges w
             else pendingChanges w ++ [written])
            (isOnline w) (Part000.mkForm "" 1 "") (isAddingItem w) None
            (Some (map (replaceById itemId written) (items w)))
            (if remote then remoteCalls w ++ [UpdateDoc itemId (withoutId written)]
             else remoteCalls w).
Proof.
  intros Hf. cbv zeta. unfold isLocalId, editedFrom.
  pose proof (findById_Some _ _ _ Hf) as [_ Hid].
  run. rewrite Hf. run. rewrite Hid.
  destruct (isOnline w && negb (includes "local-" itemId));
    [destruct reply|]; reflexivity.
Qed.

Lemma toggleItemCompletion_found clock reply target
      (w : Part000.World) (a : ShoppingItem) :
  findById target (items w) = Some a ->
  let written := toggled (clock 0) a in
  let remote := isOnline w && negb (isLocalId target) in
  exec (Part000.toggleItemCompletion clock reply target) w
  = mkWorld (map (replaceById target written) (items w))
            (if remote && negb (isRejected reply) then pendingChanges w
             else pendingChanges w ++ [written])
            (isOnline w) (newItem w) (isAddingItem w) (isEditingItem w)
            (Some (map (replaceById target written) (items w)))
            (if remote then remoteCalls w ++ [UpdateDoc target (withoutId written)]
             else remoteCalls w).
Proof.
  intros Hf. cbv zeta. unfold isLocalId, toggled.
  pose proof (findById_Some _ _ _ Hf) as [_ Hid].
  run. rewrite Hf. run. rewrite Hid.
  destruct (isOnline w && negb (includes "local-" target));
    [destruct reply|]; reflexivity.
Qed.

(** X13: with unique identifiers, [handleUpdateItem] of [part_000]
    rewrites exactly the position of the edited item: name, quantity,
    price and total come from the form, [updatedAt] is refreshed, and
    [id], [completed] and [createdAt] are kept.  The snapshot is written
    with the new list, the form is reset and the edit closed. *)
Theorem part000_update_rewrites_only_target :
  forall parseFloat (clock : nat -> string) (reply : Reply)
         (w : Part000.World) (a : ShoppingItem),
    NoDup (map id (items w)) -> In a (items w) ->
    let w' := exec (Part000.handleUpdateItem parseFloat clock reply (id a)) w in
    let written := editedFrom parseFloat (newItem w) (clock 0) a in
    exists l1 l2,
      items w = l1 ++ a :: l2 /\
      items w' = l1 ++ written :: l2 /\
      localStorage w' = Some (items w') /\
      id written = id a /\ completed written = completed a /\
      createdAt written = createdAt a /\
      newItem w' = Part000.mkForm "" 1 "" /\
      isEditingItem w' = None.
Proof.
  intros parseFloat clock reply w a Hnd Hin w' written.
  destruct (replaceById_unique written a (items w) Hnd Hin)
    as (l1 & l2 & Hl & Hfind & Hmap).
  exists l1, l2. subst w'.
  rewrite (handleUpdateItem_found parseFloat clock reply (id a) w a Hfind).
  cbv zeta. fold written. cbn [items localStorage newItem isEditingItem].
  rewrite Hmap. repeat split. exact Hl.
Qed.

Lemma part000_update_rewrites_only_target_witness :
  exists l1 l2,
    [milk; eggs] = l1 ++ eggs :: l2 /\
    items (exec (Part000.handleUpdateItem (fun _ => 0.75%float) noon Rejected (id eggs))
                (mkWorld [milk; eggs] [] false (Part000.mkForm "Eggs" 6 "0,75")
                         false (Some (id eggs)) (Some [milk; eggs]) []))
    = l1 ++ mkItem (id eggs) "Eggs" 6 0.75 4.5 true (createdAt eggs) (noon 0) :: l2.
Proof.
  destruct (part000_update_rewrites_only_target
              (fun _ => 0.75%float) noon Rejected
              (mkWorld [milk; eggs] [] false (Part000.mkForm "Eggs" 6 "0,75")
                       false (Some (id eggs)) (Some [milk; eggs]) [])
              eggs)
    as (l1 & l2 & H1 & H2 & _).
  - repeat constructor; cbn; intuition discriminate.
  - cbn; auto.
  - exists l1, l2. split; [exact H1 | exact H2].
Defined.

(** X14: an update or a toggle of an identifier the collection does not
    hold changes nothing at all: no write, no queue entry, no remote call
    (update and toggle of [part_000], toggle of [part_001]). *)
Theorem unknown_id_is_ignored :
  forall (target : string),
    (forall parseFloat clock reply (w : Part000.World),
        ~ In target (map id (items w)) ->
        exec (Part000.handleUpdateItem parseFloat clock reply target) w = w /\
        exec (Part000.toggleItemCompletion clock reply target) w = w) /\
    (forall clock reply (w : Part001.World),
        ~ In target (map id (items w)) ->
        exec (Part001.toggleItemCompletion clock reply target) w = w).
Proof.
  intros target. split.
  - intros parseFloat clock reply w Habsent.
    pose proof (findById_absent _ _ Habsent) as Hf.
    split; run; rewrite Hf; reflexivity.
  - intros clock reply w Habsent.
    pose proof (findById_absent _ _ Habsent) as Hf.
    run. rewrite Hf. reflexivity.
Qed.

Lemma unknown_id_is_ignored_witness :
  let w := mkWorld [milk; eggs] [milk] true (Part000.mkForm "Tea" 1 "9,50")
                   false None (Some [milk; eggs]) [] in
  exec (Part000.toggleItemCompletion noon Rejected (id bread)) w = w.
Proof.
  cbv zeta.
  apply (proj1 (unknown_id_is_ignored (id bread))
           (fun _ => 9.5%float) noon Rejected
           (mkWorld [milk; eggs] [milk] true (Part000.mkForm "Tea" 1 "9,50")
                    false None (Some [milk; eggs]) [])).
  cbn; intuition discriminate.
Defined.

(** X15: a toggle or an update of [part_000] on an item of the
    collection puts the written record in the collection and then either
    sends it or queues it, never both and never neither: it is sent with
    one [updateDoc] when the device is online, the identifier is not of
    the local space and the call resolves; otherwise that same record is
    appended to the queue. *)
Theorem part000_write_is_sent_or_queued :
  forall parseFloat (clock : nat -> string) (reply : Reply) (target : string)
         (w : Part000.World) (a : ShoppingItem),
    findById target (items w) = Some a ->
    let sent := isOnline w && negb (isLocalId target) && negb (isRejected reply) in
    (let w' := exec (Part000.toggleItemCompletion clock reply target) w in
     let written := toggled (clock 0) a in
     In written (items w') /\
     pendingChanges w' = (if sent then pendingChanges w
                          else pendingChanges w ++ [written]) /\
     (sent = true ->
      remoteCalls w' = remoteCalls w ++ [UpdateDoc target (withoutId written)])) /\
    (let w' := exec (Part000.handleUpdateItem parseFloat clock reply target) w in
     let written := editedFrom parseFloat (newItem w) (clock 0) a in
     In written (items w') /\
     pendingChanges w' = (if sent then pendingChanges w
                          else pendingChanges w ++ [written]) /\
     (sent = true ->
      remoteCalls w' = remoteCalls w ++ [UpdateDoc target (withoutId written)])).
Proof.
  intros parseFloat clock reply target w a Hf sent.
  pose proof (findById_Some _ _ _ Hf) as [Hin Hid].
  assert (Hwritten : forall x, In x (map (replaceById target x) (items w))).
  { intros x. apply in_map_iff. exists a. split; [|exact Hin].
    unfold replaceById. apply String.eqb_eq in Hid. rewrite Hid. reflexivity. }
  split; cbv zeta.
  - rewrite (toggleItemCompletion_found clock reply target w a Hf). cbv zeta.
    cbn [items pendingChanges remoteCalls]. fold sent.
    split; [apply Hwritten|]. split; [reflexivity|].
    intros Hs. subst sent. apply andb_true_iff in Hs. destruct Hs as [Hs _].
    rewrite Hs. reflexivity.
  - rewrite (handleUpdateItem_found parseFloat clock reply target w a Hf).
    cbv zeta. cbn [items pendingChanges remoteCalls]. fold sent.
    split; [apply Hwritten|]. split; [reflexivity|].
    intros Hs. subst sent. apply andb_true_iff in Hs. destruct Hs as [Hs _].
    rewrite Hs. reflexivity.
Qed.

Lemma part000_write_is_sent_or_queued_witness :
  pendingChanges
    (exec (Part000.toggleItemCompletion noon (Resolved "") (id milk))
          (mkWorld [milk; eggs] [] true (Part000.mkForm "" 1 "")
                   false None (Some [milk; eggs]) []))
  = [toggled (noon 0) milk].
Proof.
  apply (proj1 (proj2 (proj1
           (part000_write_is_sent_or_queued
              (fun _ => 0%float) noon (Resolved "") (id milk)
              (mkWorld [milk; eggs] [] true (Part000.mkForm "" 1 "")
                       false None (Some [milk; eggs]) [])
              milk eq_refl)))).
Defined.

(** X16: [handleRemoveItem] does not look at the outcome of [deleteDoc]:
    the state after the call is the same whether the delete resolved or
    was rejected, so a failed delete is not queued.  No item of the
    removed identifier is left in the collection or the snapshot, every
    other item stays, and [deleteDoc] is called exactly when the device is
    online and the identifier is not of the local space.  Both
    revisions. *)
Theorem remove_ignores_delete_outcome :
  forall (reply reply' : Reply) (rid : string),
    (forall w : Part000.World,
        let w' := exec (Part000.handleRemoveItem reply rid) w in
        exec (Part000.handleRemoveItem reply' rid) w = w' /\
        ~ In rid (map id (items w')) /\
        ~ In rid (map id (localData w')) /\
        (forall a, In a (items w) -> id a <> rid -> In a (items w')) /\
        remoteCalls w' = remoteCalls w ++
                         (if isOnline w && negb (isLocalId rid)
                          then [DeleteDoc rid] else [])) /\
    (forall w : Part001.World,
        let w' := exec (Part001.handleRemoveItem reply rid) w in
        exec (Part001.handleRemoveItem reply' rid) w = w' /\
        ~ In rid (map id (items w')) /\
        ~ In rid (map id (localData w')) /\
        (forall a, In a (items w) -> id a <> rid -> In a (items w')) /\
        remoteCalls w' = remoteCalls w ++
                         (if isOnline w && negb (isLocalId rid)
                          then [DeleteDoc rid] else [])).
Proof.
  intros reply reply' rid.
  assert (Hgone : forall l, ~ In rid (map id (dropId rid l))).
  { intros l Hin. apply in_map_iff in Hin. destruct Hin as (x & Hx & Hin).
    apply dropId_In in Hin. destruct Hin as [_ Hne]. contradiction. }
  assert (Hkept : forall l a, In a l -> id a <> rid -> In a (dropId rid l)).
  { intros l a Hin Hne. unfold dropId. apply filter_In. split; [exact Hin|].
    apply String.eqb_neq in Hne. rewrite Hne. reflexivity. }
  split; intros w; unfold localData, isLocalId; run;
    destruct (isOnline w && negb (includes "local-" rid)); cbn;
    rewrite ?app_nil_r; repeat split; auto.
Qed.

(** *** Adding, in both revisions *)

(** X17: an accepted [handleAddItem] of [part_000] appends exactly one
    item built from the form, writes the snapshot with the new list,
    resets the form and closes the dialog.  The item carries the remote
    key and nothing is queued when the device is online and the create
    resolves; otherwise it carries the local identifier and that same
    record is queued. *)
Theorem part000_add_queues_local_ids :
  forall parseFloat (clock : nat -> string) (stamp : string) (reply : Reply)
         (w : Part000.World),
    acceptable (newItem w) ->
    let w' := exec (Part000.handleAddItem parseFloat clock stamp reply) w in
    exists added,
      items w' = items w ++ [added] /\
      localStorage w' = Some (items w') /\
      withoutId added
      = withoutId (madeFrom parseFloat (newItem w) "" (createdAt added)
                            (updatedAt added)) /\
      newItem w' = Part000.mkForm "" 1 "" /\
      isAddingItem w' = false /\
      match reply with
      | Resolved docId =>
          if isOnline w
          then id added = docId /\ pendingChanges w' = pendingChanges w /\
               exists data, remoteCalls w' = remoteCalls w ++ [AddDoc data]
          else id added = localIdOf stamp /\
               pendingChanges w' = pendingChanges w ++ [added] /\
               remoteCalls w' = remoteCalls w
      | Rejected =>
          id added = localIdOf stamp /\
          pendingChanges w' = pendingChanges w ++ [added] /\
          exists data,
            remoteCalls w'
            = remoteCalls w ++ (if isOnline w then [AddDoc data] else [])
      end.
Proof.
  intros parseFloat clock stamp reply w Hform w'; subst w'. run.
  rewrite (acceptable_guard _ Hform).
  destruct (isOnline w) eqn:Hon; [destruct reply as [docId|]|]; cbn.
  - eexists; repeat split. eexists; reflexivity.
  - eexists; repeat split. eexists; reflexivity.
  - destruct reply; eexists; repeat (split; [reflexivity|]);
      [reflexivity|].
    exists (withoutId milk). rewrite app_nil_r. reflexivity.
Qed.

Lemma part000_add_queues_local_ids_witness :
  exists added,
    items (exec (Part000.handleAddItem (fun _ => 3.5%float) noon
                                       "1700000000000"
                                       (Resolved "Zq3RemoteKey000000001"))
                (mkWorld [] [] true (Part000.mkForm "Milk" 2 "3,50") true None
                         None []))
    = [added] /\ id added = "Zq3RemoteKey000000001".
Proof.
  destruct (part000_add_queues_local_ids
              (fun _ => 3.5%float) noon "1700000000000"
              (Resolved "Zq3RemoteKey000000001")
              (mkWorld [] [] true (Part000.mkForm "Milk" 2 "3,50") true None
                       None []))
    as (added & Hi & _ & _ & _ & _ & Hid & _).
  - split; [discriminate | reflexivity].
  - exists added. split; [exact Hi | exact Hid].
Defined.

(** X18: in [part_001], after an add made online whose create
    resolves, the collection holds the new item under its remote key but
    the snapshot does not hold it: [updateLocalItemId] rebuilds the
    snapshot from the [items] of the closure, which predate the add. *)
Theorem part001_online_add_misses_snapshot :
  forall (clock : nat -> string) (uuid stamp docId : string)
         (w : Part001.World),
    Part001.new_name (newItem w) <> "" ->
    isOnline w = true ->
    ~ In uuid (map id (items w)) ->
    let w' := exec (Part001.handleAddItem clock uuid stamp (Resolved docId)) w in
    items w' = items w ++ [madeFrom001 (newItem w) docId (clock 0) (clock 1)] /\
    localStorage w' = Some (items w) /\
    pendingChanges w' = pendingChanges w.
Proof.
  intros clock uuid stamp docId w Hname Hon Hfresh w'; subst w'. run.
  apply String.eqb_neq in Hname. rewrite Hname, Hon. cbn.
  rewrite map_app, !renameId_absent by exact Hfresh. cbn.
  unfold renameId. cbn [id]. rewrite String.eqb_refl. repeat split.
Qed.

Lemma part001_online_add_misses_snapshot_witness :
  localStorage
    (exec (Part001.handleAddItem noon "2f1c" "1700000000000"
                                 (Resolved "Zq3RemoteKey000000001"))
          (mkWorld [eggs] [] true (Part001.mkForm "Milk" 2 3.5) true None
                   (Some [eggs]) []))
  = Some [eggs].
Proof.
  apply (part001_online_add_misses_snapshot
           noon "2f1c" "1700000000000" "Zq3RemoteKey000000001"
           (mkWorld [eggs] [] true (Part001.mkForm "Milk" 2 3.5) true None
                    (Some [eggs]) [])).
  - discriminate.
  - reflexivity.
  - cbn; intuition discriminate.
Defined.

(** X19: in [part_001], an item added online whose create is rejected
    is queued under its [crypto.randomUUID()] identifier, which is not of
    the local space.  The replay therefore calls [updateDoc] on that
    identifier and never [addDoc]: the item is not created remotely. *)
Theorem part001_rejected_online_add_is_never_created :
  forall (clock : nat -> string) (uuid stamp : string)
         (reply : nat -> Reply) (navigatorOnLine : bool)
         (listing : option (list (string * ItemData))) (w : Part001.World),
    Part001.new_name (newItem w) <> "" ->
    isOnline w = true ->
    pendingChanges w = [] ->
    isLocalId uuid = false ->
    let added := madeFrom001 (newItem w) uuid (clock 0) (clock 1) in
    let w1 := exec (Part001.handleAddItem clock uuid stamp Rejected) w in
    let w2 := exec (Part001.syncPendingChanges reply navigatorOnLine listing) w1 in
    pendingChanges w1 = [added] /\
    remoteCalls w1 = remoteCalls w ++ [AddDoc (withoutId added)] /\
    exists tail,
      remoteCalls w2 = remoteCalls w1 ++ UpdateDoc uuid (withoutId added) :: tail /\
      forall data, ~ In (AddDoc data) tail.
Proof.
  intros clock uuid stamp reply navigatorOnLine listing w Hname Hon Hq Hid
         added w1 w2.
  assert (H1 : pendingChanges w1 = [added] /\
               remoteCalls w1 = remoteCalls w ++ [AddDoc (withoutId added)]).
  { subst w1. run. apply String.eqb_neq in Hname. rewrite Hname, Hon. cbn.
    rewrite ?Hq, ?Hon. split; reflexivity. }
  destruct H1 as [Hq1 Hc1]. split; [exact Hq1|]. split; [exact Hc1|].
  clear Hc1. subst w2. clearbody w1.
  unfold Part001.syncPendingChanges, exec, bind, rendered. cbv zeta.
  rewrite Hq1. cbn [Part001.syncLoop].
  change (includes "local-" (id added)) with (isLocalId uuid). rewrite Hid.
  cbn [negb]. change (id added) with uuid.
  unfold updateDoc, call, bind, ret.
  destruct (reply 0) as [docRef|].
  - cbn [fst snd]. unfold setPendingChanges.
    cbn [fst snd items pendingChanges isOnline newItem isAddingItem
         isEditingItem localStorage remoteCalls].
    match goal with
    | |- context [Part001.loadItems _ _ ?w3] =>
        pose proof (part001_loadItems_calls navigatorOnLine listing w3) as Hl
    end.
    unfold exec in Hl. cbn [remoteCalls] in Hl. rewrite Hl, <- app_assoc.
    eexists. split; [reflexivity|].
    intros data Hin. destruct navigatorOnLine; cbn in Hin;
      [destruct Hin as [H|[]]; discriminate | contradiction].
  - cbn [fst snd remoteCalls]. exists []. split; [reflexivity|].
    intros data Hin. contradiction.
Qed.

Lemma part001_rejected_online_add_is_never_created_witness :
  let w := mkWorld [] [] true (Part001.mkForm "Milk" 2 3.5) true None None [] in
  pendingChanges
    (exec (Part001.handleAddItem noon "2f1c" "1700000000000" Rejected) w)
  = [madeFrom001 (newItem w) "2f1c" (noon 0) (noon 1)].
Proof.
  cbv zeta.
  apply (proj1 (part001_rejected_online_add_is_never_created
                  noon "2f1c" "1700000000000" (fun _ => Rejected) true None
                  (mkWorld [] [] true (Part001.mkForm "Milk" 2 3.5) true None
                           None [])
                  ltac:(discriminate) eq_refl eq_refl eq_refl)).
Defined.

(** *** Editing, totals, and the snapshot of part_001 *)

Lemma dropId_unique (a : ShoppingItem) (l1 l2 : list ShoppingItem) :
  NoDup (map id (l1 ++ a :: l2)) ->
  dropId (id a) (l1 ++ a :: l2) = l1 ++ l2.
Proof.
  intros Hnd. rewrite map_app in Hnd. cbn [map] in Hnd.
  pose proof (NoDup_remove_2 _ _ _ Hnd) as Hnot.
  unfold dropId. rewrite filter_app. cbn [filter].
  rewrite String.eqb_refl. cbn [negb].
  fold (dropId (id a) l1). fold (dropId (id a) l2).
  rewrite !dropId_absent; [reflexivity| |];
    intros Hin; apply Hnot; apply in_or_app; [right|left]; exact Hin.
Qed.

(** X20: in [part_001], opening the edit form of an item and saving
    it unchanged rewrites only that item's [updatedAt], provided its total
    was quantity times price and identifiers are unique: every other field
    and every other item stay as they were. *)
Theorem part001_edit_without_change :
  forall (clock : nat -> string) (reply : Reply) (w : Part001.World)
         (a : ShoppingItem),
    NoDup (map id (items w)) -> In a (items w) -> totalOk a ->
    let w1 := exec (Part001.startEdit a) w in
    let w2 := exec (Part001.saveEdit clock reply a) w1 in
    isEditingItem w1 = Some (id a) /\
    exists l1 l2,
      items w = l1 ++ a :: l2 /\
      items w2 = l1 ++ touched (clock 0) a :: l2 /\
      localStorage w2 = Some (items w2) /\
      isEditingItem w2 = None.
Proof.
  intros clock reply w a Hnd Hin Htotal w1 w2.
  split; [reflexivity|].
  destruct (replaceById_unique (touched (clock 0) a) a (items w) Hnd Hin)
    as (l1 & l2 & Hl & _ & Hmap).
  exists l1, l2. split; [exact Hl|].
  subst w2 w1. unfold Part001.startEdit. run. run.
  cbn [Part001.new_name Part001.new_quantity Part001.new_unitPrice id].
  unfold totalOk in Htotal. rewrite <- Htotal.
  fold (touched (clock 0) a). rewrite Hmap.
  destruct (isOnline w); [destruct reply|]; cbn; repeat split.
Qed.

Lemma part001_edit_without_change_witness :
  exists l1 l2,
    [milk; eggs] = l1 ++ eggs :: l2 /\
    items (exec (Part001.saveEdit noon Rejected eggs)
                (exec (Part001.startEdit eggs)
                      (mkWorld [milk; eggs] [] false (Part001.mkForm "" 1 0)
                               false None (Some [milk; eggs]) [])))
    = l1 ++ touched (noon 0) eggs :: l2.
Proof.
  destruct (part001_edit_without_change noon Rejected
              (mkWorld [milk; eggs] [] false (Part001.mkForm "" 1 0)
                       false None (Some [milk; eggs]) [])
              eggs)
    as (_ & l1 & l2 & H1 & H2 & _).
  - repeat constructor; cbn; intuition discriminate.
  - cbn; auto.
  - reflexivity.
  - exists l1, l2. split; [exact H1 | exact H2].
Defined.

Lemma pending_filter_skip (a : ShoppingItem) (l1 l2 : list ShoppingItem) :
  completed a = true ->
  filter (fun item => negb (completed item)) (l1 ++ a :: l2)
  = filter (fun item => negb (completed item)) (l1 ++ l2).
Proof.
  intros Ha. rewrite !filter_app. cbn [filter]. rewrite Ha. reflexivity.
Qed.

Lemma fold_total_ext (l l' : list ShoppingItem) (acc : float) :
  map total l = map total l' ->
  fold_left (fun sum item => (sum + total item)%float) l acc
  = fold_left (fun sum item => (sum + total item)%float) l' acc.
Proof.
  revert l' acc; induction l as [|x l IH]; intros [|y l'] acc H;
    cbn in *; try discriminate; [reflexivity|].
  inversion H as [[Hx Hl]]. rewrite Hx. apply IH. exact Hl.
Qed.

(** X21: ticking a pending item changes the total [part_000] shows
    exactly as removing the item would; in [part_001], where the total
    counts every item, ticking never changes it.  Identifiers are
    unique. *)
Theorem ticking_and_the_total :
  forall (clock : nat -> string) (reply reply' : Reply) (a : ShoppingItem),
    (forall w : Part000.World,
        NoDup (map id (items w)) -> In a (items w) -> completed a = false ->
        Part000.calculateTotal
          (exec (Part000.toggleItemCompletion clock reply (id a)) w)
        = Part000.calculateTotal
            (exec (Part000.handleRemoveItem reply' (id a)) w)) /\
    (forall w : Part001.World,
        NoDup (map id (items w)) -> In a (items w) ->
        Part001.calculateTotal
          (exec (Part001.toggleItemCompletion clock reply (id a)) w)
        = Part001.calculateTotal w).
Proof.
  intros clock reply reply' a. split.
  - intros w Hnd Hin Hpending.
    destruct (replaceById_unique (toggled (clock 0) a) a (items w) Hnd Hin)
      as (l1 & l2 & Hl & Hfind & Hmap).
    unfold Part000.calculateTotal.
    rewrite (toggleItemCompletion_found clock reply (id a) w a Hfind).
    rewrite (proj1 (proj1 (handleRemoveItem_state reply' (id a)) w)).
    cbv zeta. cbn [items]. rewrite Hmap.
    rewrite Hl in Hnd |- *. rewrite (dropId_unique a l1 l2 Hnd).
    rewrite (pending_filter_skip (toggled (clock 0) a) l1 l2); [reflexivity|].
    cbn. rewrite Hpending. reflexivity.
  - intros w Hnd Hin.
    destruct (replaceById_unique (toggled (clock 0) a) a (items w) Hnd Hin)
      as (l1 & l2 & Hl & Hfind & Hmap).
    unfold Part001.calculateTotal.
    pose proof (part001_handleUpdateItem_items reply (toggled (clock 0) a) w)
      as Hitems.
    change (id (toggled (clock 0) a)) with (id a) in Hitems.
    assert (Hw : items (exec (Part001.toggleItemCompletion clock reply (id a)) w)
                 = l1 ++ toggled (clock 0) a :: l2).
    { rewrite <- Hmap, <- Hitems.
      unfold Part001.toggleItemCompletion, exec, bind, rendered. cbv zeta.
      rewrite Hfind. reflexivity. }
    rewrite Hw. apply fold_total_ext. rewrite Hl, !map_app. reflexivity.
Qed.

Lemma ticking_and_the_total_witness :
  let w := mkWorld [milk; bread] [] false (Part000.mkForm "" 1 "")
                   false None (Some [milk; bread]) [] in
  Part000.calculateTotal
    (exec (Part000.toggleItemCompletion noon Rejected (id milk)) w)
  = Part000.calculateTotal
      (exec (Part000.handleRemoveItem Rejected (id milk)) w).
Proof.
  cbv zeta.
  apply (proj1 (ticking_and_the_total noon Rejected Rejected milk)).
  - repeat constructor; cbn; intuition discriminate.
  - cbn; auto.
  - reflexivity.
Defined.

(** The snapshot [updateLocalItemId] leaves after the replacements [rs] of a
    replay of [part_001]: the closure's items with the last one alone. *)
Lemma part001_syncLoop_snapshot closureItems reply (queue : list ShoppingItem) :
  forall i (w : Part001.World),
    allResolved reply i queue = true ->
    items (snd (Part001.syncLoop closureItems reply i queue w))
    = applyRenames (renamesOf reply i queue) (items w) /\
    localStorage (snd (Part001.syncLoop closureItems reply i queue w))
    = match lastOf (renamesOf reply i queue) with
      | None => localStorage w
      | Some p => Some (map (renameId (fst p) (snd p)) closureItems)
      end.
Proof.
  induction queue as [|item rest IH]; intros i w Hall.
  - cbn. auto.
  - cbn [allResolved] in Hall. apply andb_true_iff in Hall.
    destruct Hall as [Hr Hrest].
    cbn [Part001.syncLoop renamesOf].
    change (includes "local-" (id item)) with (isLocalId (id item)).
    destruct (reply i) as [docRef|]; [|discriminate].
    destruct (isLocalId (id item)); cbn [negb]; run.
    + match goal with
      | |- context [Part001.syncLoop _ _ _ _ ?w1] =>
          destruct (IH (S i) w1 Hrest) as (Hi & Hs)
      end.
      rewrite Hi, Hs. cbn [items localStorage]. split; [reflexivity|].
      unfold lastOf. cbn [rev].
      destruct (rev (renamesOf reply (S i) rest)) as [|p ps]; reflexivity.
    + match goal with
      | |- context [Part001.syncLoop _ _ _ _ ?w1] =>
          destruct (IH (S i) w1 Hrest) as (Hi & Hs)
      end.
      rewrite Hi, Hs. cbn [items localStorage]. auto.
Qed.

(** X22: after a replay of [part_001] in which every call resolves
    (the listing that follows being rejected), the collection carries
    every replacement of the replay, but the snapshot is the collection of
    before the replay with the last replacement alone: earlier local
    identifiers are back in the snapshot. *)
Theorem part001_replay_snapshot_keeps_last_rename_only :
  forall (reply : nat -> Reply) (w : Part001.World),
    allResolved reply 0 (pendingChanges w) = true ->
    let rs := renamesOf reply 0 (pendingChanges w) in
    let w' := exec (Part001.syncPendingChanges reply true None) w in
    items w' = applyRenames rs (items w) /\
    localStorage w' = match lastOf rs with
                      | None => localStorage w
                      | Some p => Some (map (renameId (fst p) (snd p)) (items w))
                      end /\
    pendingChanges w' = [].
Proof.
  intros reply w Hall rs w'; subst rs w'.
  unfold Part001.syncPendingChanges, exec, bind, rendered. cbv zeta.
  destruct (part001_syncLoop_snapshot (items w) reply (pendingChanges w) 0 w Hall)
    as (Hi & Hs).
  destruct (part001_syncLoop_exact (items w) reply (pendingChanges w) 0 w)
    as (Hf & _ & _).
  destruct (Part001.syncLoop (items w) reply 0 (pendingChanges w) w)
    as [finished w1] eqn:Hloop.
  cbn [fst snd] in Hi, Hs, Hf. rewrite Hall in Hf. subst finished.
  run. rewrite Hi, Hs. repeat split.
Qed.

Lemma part001_replay_snapshot_keeps_last_rename_only_witness :
  let w := mkWorld [milk; bread] [milk; bread] true (Part001.mkForm "" 1 0)
                   false None (Some [milk; bread]) [] in
  let w' := exec (Part001.syncPendingChanges twoKeys true None) w in
  map id (items w') = ["Zq3RemoteKey000000001"; "Zq3RemoteKey000000002"] /\
  map id (localData w') = [id milk; "Zq3RemoteKey000000002"].
Proof.
  cbv zeta.
  destruct (part001_replay_snapshot_keeps_last_rename_only twoKeys
              (mkWorld [milk; bread] [milk; bread] true (Part001.mkForm "" 1 0)
                       false None (Some [milk; bread]) [])
              eq_refl)
    as (Hi & Hs & _).
  unfold localData. rewrite Hi, Hs. split; reflexivity.
Defined.

(** *** Instances of the invariants *)

Lemma part000_mutate_unique_ids_witness :
  NoDup (map id
             (items (exec (mutate (fun _ => 0%float)
                                  (Add noon "1700000000002" Rejected))
                          (mkWorld [milk; eggs] [] false
                                   (Part000.mkForm "Tea" 1 "9,50") true None
                                   (Some [milk; eggs]) [])))).
Proof.
  apply (part000_mutate_unique_ids (fun _ => 0%float)
           (Add noon "1700000000002" Rejected)
           (mkWorld [milk; eggs] [] false (Part000.mkForm "Tea" 1 "9,50")
                    true None (Some [milk; eggs]) [])).
  - repeat constructor; cbn; intuition discriminate.
  - split; [cbn; intuition discriminate | intros docId H; discriminate].
Defined.

Lemma part000_sync_unique_ids_witness :
  NoDup (map id
             (items (exec (Part000.syncPendingChanges twoKeys)
                          (mkWorld [milk; bread] [milk; bread] true
                                   (Part000.mkForm "" 1 "") false None
                                   (Some [milk; bread]) [])))).
Proof.
  apply (part000_sync_unique_ids twoKeys
           (mkWorld [milk; bread] [milk; bread] true (Part000.mkForm "" 1 "")
                    false None (Some [milk; bread]) [])).
  - repeat constructor; cbn; intuition discriminate.
  - repeat constructor; cbn; intuition discriminate.
  - intros p Hp. cbn in Hp. destruct Hp as [<-|[<-|[]]]; cbn;
      intuition discriminate.
Defined.

Lemma part001_mutations_keep_total_witness :
  Forall totalOk
    (items (exec (Part001.toggleItemCompletion noon Rejected (id milk))
                 (mkWorld [milk; eggs] [] false (Part001.mkForm "" 1 0)
                          false None (Some [milk; eggs]) []))).
Proof.
  apply (proj2 (proj2 (proj2
           (part001_mutations_keep_total
              (mkWorld [milk; eggs] [] false (Part001.mkForm "" 1 0)
                       false None (Some [milk; eggs]) [])
              ltac:(repeat constructor))))).
Defined.

(** *** Editing in part_000 *)

Lemma parse_formatted parseFloat toFixed2 (value : float) :
  decimalText (toFixed2 value) = true ->
  toFixed2 value <> "" ->
  Part000.parseCurrency parseFloat (Part000.formatCurrency toFixed2 value)
  = Part000.orZero (parseFloat (toFixed2 value)).
Proof.
  intros Htext Hne. unfold Part000.parseCurrency, Part000.formatCurrency.
  destruct (String.eqb_spec (Part000.replaceFirstDot (toFixed2 value)) "")
    as [Hempty|_].
  - apply replaceFirstDot_empty in Hempty. contradiction.
  - rewrite (format_parse_text _ Htext). reflexivity.
Qed.

(** X28: in [part_000], opening the edit form of an item and saving it
    unchanged keeps the item's name, quantity, [id], [completed] and
    [createdAt], but stores as price what [parseFloat] reads from the
    two-decimal text of the old price, and the total computed from it:
    a price that [toFixed(2)] rounds is changed by the edit.  Identifiers
    are unique and the two-decimal text is digits with at most one
    point. *)
Theorem part000_edit_without_change_rounds_price :
  forall parseFloat toFixed2 (clock : nat -> string) (reply : Reply)
         (w : Part000.World) (a : ShoppingItem),
    NoDup (map id (items w)) -> In a (items w) ->
    decimalText (toFixed2 (unitPrice a)) = true ->
    toFixed2 (unitPrice a) <> "" ->
    let w1 := exec (Part000.startEdit toFixed2 a) w in
    let w2 := exec (Part000.handleUpdateItem parseFloat clock reply (id a)) w1 in
    let price := Part000.orZero (parseFloat (toFixed2 (unitPrice a))) in
    exists l1 l2,
      items w = l1 ++ a :: l2 /\
      items w2 = l1 ++ mkItem (id a) (name a) (quantity a) price
                              (quantity a * price)%float
                              (completed a) (createdAt a) (clock 0) :: l2.
Proof.
  intros parseFloat toFixed2 clock reply w a Hnd Hin Htext Hne w1 w2 price.
  set (written := mkItem (id a) (name a) (quantity a) price
                         (quantity a * price)%float
                         (completed a) (createdAt a) (clock 0)).
  destruct (replaceById_unique written a (items w) Hnd Hin)
    as (l1 & l2 & Hl & Hfind & Hmap).
  exists l1, l2. split; [exact Hl|].
  assert (Hitems : items w1 = items w) by reflexivity.
  assert (Hform : newItem w1 = Part000.mkForm (name a) (quantity a)
                    (Part000.formatCurrency toFixed2 (unitPrice a)))
    by reflexivity.
  subst w2.
  rewrite (handleUpdateItem_found parseFloat clock reply (id a) w1 a)
    by (rewrite Hitems; exact Hfind).
  cbv zeta. cbn [items]. rewrite Hitems, Hform. unfold editedFrom.
  cbn [Part000.new_name Part000.new_quantity Part000.new_unitPrice].
  rewrite (parse_formatted parseFloat toFixed2 (unitPrice a) Htext Hne).
  fold price. fold written. exact Hmap.
Qed.

Lemma part000_edit_without_change_rounds_price_witness :
  exists l1 l2,
    [milk; eggs] = l1 ++ milk :: l2 /\
    items (exec (Part000.handleUpdateItem (fun _ => 3.5%float) noon Rejected (id milk))
                (exec (Part000.startEdit (fun _ => "3.50") milk)
                      (mkWorld [milk; eggs] [] false (Part000.mkForm "" 1 "")
                               false None (Some [milk; eggs]) [])))
    = l1 ++ mkItem (id milk) "Milk" 2 3.5 7 false (createdAt milk) (noon 0) :: l2.
Proof.
  destruct (part000_edit_without_change_rounds_price
              (fun _ => 3.5%float) (fun _ => "3.50") noon Rejected
              (mkWorld [milk; eggs] [] false (Part000.mkForm "" 1 "")
                       false None (Some [milk; eggs]) [])
              milk)
    as (l1 & l2 & H1 & H2).
  - repeat constructor; cbn; intuition discriminate.
  - cbn; auto.
  - reflexivity.
  - discriminate.
  - exists l1, l2. split; [exact H1 | exact H2].
Defined.

(** *** The snapshot and the JSON round trip *)

Lemma jsonNumber_safe (x : float) : jsonNumber x = Some x <-> jsonSafeNumber x.
Proof.
  unfold jsonNumber, jsonSafeNumber.
  destruct (is_nan x || is_infinity x); destruct (is_zero x); split.
  - discriminate.
  - intros [H _]; discriminate.
  - discriminate.
  - intros [H _]; discriminate.
  - intros H; injection H as H. split; [reflexivity|]. intros _; symmetry; exact H.
  - intros [_ H]. rewrite (H eq_refl). reflexivity.
  - intros _. split; [reflexivity|discriminate].
  - reflexivity.
Qed.

Lemma readBack_safe (item : ShoppingItem) :
  readBack item = unchangedItem item <-> jsonSafe item.
Proof.
  unfold readBack, unchangedItem, jsonSafe. split.
  - intros H. injection H as Hq Hp Ht.
    repeat split; apply jsonNumber_safe; assumption.
  - intros (Hq & Hp & Ht).
    apply jsonNumber_safe in Hq, Hp, Ht. rewrite Hq, Hp, Ht. reflexivity.
Qed.

Lemma readBack_all (l : list ShoppingItem) :
  map readBack l = map unchangedItem l <-> Forall jsonSafe l.
Proof.
  induction l as [|x l IH]; cbn.
  - split; [constructor|reflexivity].
  - split.
    + intros H.
      assert (Hx : readBack x = unchangedItem x) by congruence.
      assert (Hl : map readBack l = map unchangedItem l) by congruence.
      constructor; [apply readBack_safe; exact Hx | apply IH; exact Hl].
    + intros H. inversion H as [|? ? Hx Hl]; subst.
      f_equal; [apply readBack_safe; exact Hx | apply IH; exact Hl].
Qed.

Lemma session_inSync parseFloat toFixed2 online stored navigatorOnLine listing
      (events : list Event) :
  inSync (session parseFloat toFixed2 online stored navigatorOnLine listing
                  events).
Proof.
  unfold session.
  pose proof (part000_loadItems_inSync online stored navigatorOnLine listing)
    as Hstart.
  revert Hstart.
  generalize (exec (Part000.loadItems navigatorOnLine listing)
                   (Part000.initial online stored)).
  induction events as [|e events IH]; intros w Hw; cbn [fold_left].
  - exact Hw.
  - apply IH. apply handle_inSync. exact Hw.
Qed.

(** X8: after a startup whose snapshot parsed to items (numbers finite,
    no negative zero) and any sequence of events of [part_000] (mutations,
    going online with its replay, going offline, typing in the form,
    opening or cancelling an edit), the snapshot holds the JSON text of the
    collection: reading it gives the collection as [JSON] returns it.
    That is the collection itself exactly when every quantity, price and
    total in it is finite and not negative zero; otherwise the snapshot
    reads [null] (or [0] for negative zero) where the collection holds the
    number. *)
Theorem part000_snapshot_is_json_of_collection :
  forall parseFloat toFixed2 online stored navigatorOnLine listing
         (events : list Event),
    Forall jsonSafe (match stored with Some l => l | None => [] end) ->
    let w := session parseFloat toFixed2 online stored navigatorOnLine listing
                     events in
    map readBack (localData w) = map readBack (items w) /\
    (map readBack (localData w) = map unchangedItem (items w)
     <-> Forall jsonSafe (items w)).
Proof.
  intros parseFloat toFixed2 online stored navigatorOnLine listing events _ w.
  pose proof (session_inSync parseFloat toFixed2 online stored navigatorOnLine
                             listing events) as Hw.
  fold w in Hw. unfold inSync in Hw. rewrite Hw.
  split; [reflexivity|]. apply readBack_all.
Qed.

Lemma part000_snapshot_is_json_of_collection_witness :
  let w := session overflowing (fun _ => "") false (Some [bread]) false None
                   [Types (Part000.mkForm "Milk" 2 longPrice);
                    Mutates (Add noon "1700000000000" Rejected)] in
  map unitPrice (items w) = [4%float; infinity] /\
  map readBack (localData w) = map readBack (items w) /\
  map parsed_unitPrice (map readBack (localData w)) = [Some 4%float; None] /\
  map readBack (localData w) <> map unchangedItem (items w).
Proof.
  cbv zeta.
  assert (Hstored : Forall jsonSafe [bread]).
  { repeat constructor; intros Hz; vm_compute in Hz; discriminate. }
  destruct (part000_snapshot_is_json_of_collection
              overflowing (fun _ => "") false (Some [bread]) false None
              [Types (Part000.mkForm "Milk" 2 longPrice);
               Mutates (Add noon "1700000000000" Rejected)]
              Hstored) as [Htext Hback].
  split; [vm_compute; reflexivity|].
  split; [exact Htext|].
  split; [vm_compute; reflexivity|].
  intros Heq. apply Hback in Heq.
  inversion Heq as [|x l _ Hrest]; subst.
  inversion Hrest as [|y l' (_ & (Hinf & _) & _) _]; subst.
  vm_compute in Hinf. discriminate.
Defined.

(** *** Removing an absent identifier in part_001 *)

(** C10: in [part_001] the removal of an identifier the collection does
    not hold changes the snapshot.  In the session
    [part001_remove_session] the online add has left the snapshot without
    the new item ([updateLocalItemId] rebuilt it from the closure's
    [items]); removing the absent identifier of [bread] then leaves the
    collection and the queue as they were but rewrites the snapshot from
    one item to two. *)
Theorem part001_remove_absent_id_rewrites_snapshot :
  let before := fst part001_remove_session in
  let after := snd part001_remove_session in
  ~ In (id bread) (map id (items before)) /\
  items after = items before /\
  pendingChanges after = pendingChanges before /\
  map name (items before) = ["Eggs"; "Milk"] /\
  map name (localData before) = ["Eggs"] /\
  map name (localData after) = ["Eggs"; "Milk"] /\
  localStorage after <> localStorage before.
Proof.
  cbv zeta.
  split; [vm_compute; intuition discriminate|].
  repeat split; try reflexivity.
  vm_compute; discriminate.
Qed.
